(** * GitFlow AI: the intent classifier, command synthesizer and risk auditor

    A shallow embedding of [src/services/nlp_service.py] (class [NLPService])
    together with the parts of [src/services/gpt_service.py] and
    [src/services/git_analyzer.py] it calls, followed by the properties the
    design document states about them.

    Conventions of the embedding.
    - A Python [str] is a Rocq [string]; a character is a code point below
      256, classified and lower-cased the way Python does for that range.
      Literal messages holding symbols beyond that range are kept as the
      bytes of the source file; they are only compared and concatenated.
    - A Python exception is a value [Raise e] of the type [result].
    - The language model behind [GPTModelService] and the working tree behind
      [GitStateAnalyzer] are fields of the records that stand for these
      objects: whatever they answer is a parameter of every statement. *)

From Stdlib Require Import ZArith QArith Lia List Ascii String Bool.
From Stdlib Require Import DecimalString.
From stdpp Require Import base option list gmap strings.

Local Open Scope list_scope.
Local Open Scope string_scope.

(** ** Characters and strings as Python sees them *)

Module Text.

Definition code (c : ascii) : N := N_of_ascii c.

Definition between (lo hi : N) (c : ascii) : bool :=
  ((lo <=? code c) && (code c <=? hi))%N.

(** [\w] on a [str] pattern: alphanumeric in Unicode, or the underscore. *)
Definition is_word (c : ascii) : bool :=
  between 48 57 c || between 65 90 c || between 95 95 c || between 97 122 c
  || between 170 170 c || between 178 179 c || between 181 181 c
  || between 185 186 c || between 188 190 c || between 192 214 c
  || between 216 246 c || between 248 255 c.

(** [\s], also what [str.strip()] removes. *)
Definition is_space (c : ascii) : bool :=
  between 9 13 c || between 28 32 c || between 133 133 c || between 160 160 c.

Definition newline : ascii := "010"%char.
Definition dquote : ascii := "034"%char.
Definition squote : ascii := "039"%char.

Definition lower_char (c : ascii) : ascii :=
  if between 65 90 c || between 192 214 c || between 216 222 c
  then ascii_of_N (code c + 32) else c.

(** [str.lower()] *)
Fixpoint lower (s : string) : string :=
  match s with
  | EmptyString => EmptyString
  | String c s' => String (lower_char c) (lower s')
  end.

(** [s.startswith(p)] *)
Fixpoint startswith (p s : string) : bool :=
  match p, s with
  | EmptyString, _ => true
  | String _ _, EmptyString => false
  | String a p', String b s' => Ascii.eqb a b && startswith p' s'
  end.

(** [needle in hay] for two strings *)
Fixpoint contains (needle hay : string) : bool :=
  startswith needle hay ||
  match hay with
  | EmptyString => false
  | String _ hay' => contains needle hay'
  end.

(** [s[:n]] *)
Fixpoint take (n : nat) (s : string) : string :=
  match n, s with
  | S n', String c s' => String c (take n' s')
  | _, _ => EmptyString
  end.

Fixpoint lstrip (s : string) : string :=
  match s with
  | String c s' => if is_space c then lstrip s' else s
  | EmptyString => EmptyString
  end.

Fixpoint rstrip (s : string) : string :=
  match s with
  | EmptyString => EmptyString
  | String c s' =>
      match rstrip s' with
      | EmptyString => if is_space c then EmptyString else String c EmptyString
      | t => String c t
      end
  end.

(** [s.strip()] *)
Definition strip (s : string) : string := rstrip (lstrip s).

(** [s.split('\n')[0]]: the text before the first line feed. *)
Fixpoint first_line (s : string) : string :=
  match s with
  | EmptyString => EmptyString
  | String c s' =>
      if Ascii.eqb c newline then EmptyString else String c (first_line s')
  end.

(** [sep.join(l)] *)
Fixpoint join (sep : string) (l : list string) : string :=
  match l with
  | [] => EmptyString
  | [x] => x
  | x :: l' => x ++ sep ++ join sep l'
  end.

(** [str(n)] for an integer. *)
Definition str_of_Z (n : Z) : string := NilZero.string_of_int (Z.to_int n).
Definition str_of_nat (n : nat) : string := str_of_Z (Z.of_nat n).

(** one character as a string *)
Definition chr (c : ascii) : string := String c EmptyString.

End Text.

(** ** The fragment of Python's [re] that the patterns use

    A backtracking matcher in the style of the [sre] engine: alternatives are
    tried left to right, repetition is greedy, [search] scans start offsets
    from the left.  Repetition only ever applies to a single-character item
    in the patterns of this program, which is what [Star] and [Plus] carry. *)

Module Re.

Inductive regex : Type :=
| Eps                                  (* the empty pattern *)
| Lit (c : ascii)                      (* a literal character *)
| One (p : ascii -> bool)              (* [.], [\s], a class [[...]] *)
| Star (p : ascii -> bool)             (* x* for a one-character x *)
| Bound                                (* [\b] *)
| Cat (r1 r2 : regex)
| Or (r1 r2 : regex)
| Group (n : nat) (r : regex).         (* the n-th parenthesis *)

(** [.] without DOTALL *)
Definition dot (c : ascii) : bool := negb (Ascii.eqb c Text.newline).

Definition Plus (p : ascii -> bool) : regex := Cat (One p) (Star p).

Fixpoint lit (s : string) : regex :=
  match s with
  | EmptyString => Eps
  | String c EmptyString => Lit c
  | String c s' => Cat (Lit c) (lit s')
  end.

Fixpoint seq (rs : list regex) : regex :=
  match rs with
  | [] => Eps
  | [r] => r
  | r :: rs' => Cat r (seq rs')
  end.

Fixpoint alt (r : regex) (rs : list regex) : regex :=
  match rs with
  | [] => r
  | r' :: rs' => Or r (alt r' rs')
  end.

(** [(w1|w2|...)] as the n-th group *)
Definition words (n : nat) (w : string) (ws : list string) : regex :=
  Group n (alt (lit w) (map lit ws)).

(** What the engine carries: the character before the cursor, the text
    from the cursor on, and the groups closed so far (latest first). *)
Record cursor : Type := Cursor {
  before : option ascii;
  rest : string;
  groups : list (nat * string)
}.

Definition word_opt (c : option ascii) : bool :=
  match c with Some a => Text.is_word a | None => false end.

Definition next_char (s : string) : option ascii :=
  match s with String c _ => Some c | EmptyString => None end.

(** [\b]: exactly one side of the cursor is a word character. *)
Definition at_boundary (cu : cursor) : bool :=
  xorb (word_opt (before cu)) (word_opt (next_char (rest cu))).

Definition step (p : ascii -> bool) (cu : cursor) : option cursor :=
  match rest cu with
  | String c s' => if p c then Some (Cursor (Some c) s' (groups cu)) else None
  | EmptyString => None
  end.

Definition or_else {A} (x y : option A) : option A :=
  match x with Some _ => x | None => y end.

(** greedy repetition: take one more character when possible, fall back to
    stopping here when the continuation fails further on *)
Fixpoint star {A} (p : ascii -> bool) (b : option ascii) (s : string)
    (g : list (nat * string)) (k : cursor -> option A) : option A :=
  match s with
  | String c s' =>
      if p c then or_else (star p (Some c) s' g k) (k (Cursor b s g))
      else k (Cursor b s g)
  | EmptyString => k (Cursor b s g)
  end.

(** the text consumed between two cursors of one scan *)
Definition consumed (from to : string) : string :=
  Text.take (String.length from - String.length to) from.

Fixpoint exec {A} (r : regex) (cu : cursor) (k : cursor -> option A) : option A :=
  match r with
  | Eps => k cu
  | Lit c => match step (Ascii.eqb c) cu with Some cu' => k cu' | None => None end
  | One p => match step p cu with Some cu' => k cu' | None => None end
  | Star p => star p (before cu) (rest cu) (groups cu) k
  | Bound => if at_boundary cu then k cu else None
  | Cat r1 r2 => exec r1 cu (fun cu' => exec r2 cu' k)
  | Or r1 r2 => or_else (exec r1 cu k) (exec r2 cu k)
  | Group n r' =>
      exec r' cu (fun cu' =>
        k (Cursor (before cu') (rest cu')
             ((n, consumed (rest cu) (rest cu')) :: groups cu')))
  end.

(** A match object: the groups it closed. *)
Definition match_obj : Type := list (nat * string).

(** [m.group(n)] *)
Fixpoint group (n : nat) (m : match_obj) : option string :=
  match m with
  | [] => None
  | (i, s) :: m' => if Nat.eqb i n then Some s else group n m'
  end.

Definition try_at (r : regex) (b : option ascii) (s : string) : option match_obj :=
  exec r (Cursor b s []) (fun cu => Some (groups cu)).

Fixpoint scan (r : regex) (b : option ascii) (s : string) : option match_obj :=
  match try_at r b s with
  | Some m => Some m
  | None =>
      match s with
      | String c s' => scan r (Some c) s'
      | EmptyString => None
      end
  end.

(** [re.search(r, s)] *)
Definition search (r : regex) (s : string) : option match_obj := scan r None s.

(** truth value of a match object or [None] *)
Definition found (m : option match_obj) : bool :=
  match m with Some _ => true | None => false end.

End Re.

(** ** Exceptions *)

Module Exn.

Inductive exn : Type :=
| RuntimeError (msg : string)
| ValueError (msg : string)
| GitError (msg : string).     (* anything the git library raises *)

Inductive result (A : Type) : Type :=
| Ok (a : A)
| Raise (e : exn).
Arguments Ok {A} a.
Arguments Raise {A} e.

Definition bind {A B} (x : result A) (f : A -> result B) : result B :=
  match x with Ok a => f a | Raise e => Raise e end.

Definition rmap {A B} (f : A -> B) (x : result A) : result B :=
  bind x (fun a => Ok (f a)).

(** the value a computation produces; nothing when it raises *)
Definition produced {A} (x : result (list A)) : list A :=
  match x with Ok l => l | Raise _ => [] end.

End Exn.

Notation "'let!' x ':=' c 'in' k" := (Exn.bind c (fun x => k))
  (at level 10, x name, c at level 100, k at level 200).

(** ** The data model *)

Module Models.

(** [src/models/git_models.py] is imported by the services but is not among
    the sources.  The types below have the fields the services read and
    write, with the types the design document (section 3) and the
    annotations in the services give them. *)

(** Modelled from the spec: the enum [RiskLevel] of the missing
    [git_models.py]; the services use its three members. *)
Inductive RiskLevel : Type := SAFE | MODERATE | DESTRUCTIVE.

Definition RiskLevel_eqb (a b : RiskLevel) : bool :=
  match a, b with
  | SAFE, SAFE | MODERATE, MODERATE | DESTRUCTIVE, DESTRUCTIVE => true
  | _, _ => false
  end.

(** Modelled from the spec: the class [GitCommand] of the missing
    [git_models.py], with the keyword arguments of its constructor calls;
    [explanation] is left out by some calls. *)
Record GitCommand : Type := mkGitCommand {
  command : string;
  args : list string;
  description : string;
  risk_level : RiskLevel;
  requires_confirmation : bool;
  explanation : option string
}.

(** Modelled from the spec: the class [FileStatus] of the missing
    [git_models.py]; the line counts are only given by [analyze_diff]. *)
Record FileStatus : Type := mkFileStatus {
  path : string;
  status : string;
  insertions : option Z;
  deletions : option Z;
  changes : option Z
}.

(** Modelled from the spec: the class [Remote] of the missing
    [git_models.py]. *)
Record Remote : Type := mkRemote {
  remote_name : string;
  url : string;
  fetch_url : string
}.

(** Modelled from the spec: the class [Commit] of the missing
    [git_models.py]. *)
Record Commit : Type := mkCommit {
  hash : string;
  message : string;
  author : string;
  date : string;
  files_changed : list string
}.

(** Modelled from the spec: the class [GitRepositoryState] of the missing
    [git_models.py], the snapshot; [conflicted_files] and [ahead_behind] are
    optional, the latter a dict from the keys ahead and behind to integers. *)
Record GitRepositoryState : Type := mkState {
  current_branch : string;
  staged_files : list FileStatus;
  unstaged_files : list FileStatus;
  untracked_files : list string;
  remotes : list Remote;
  recent_commits : list Commit;
  conflicted_files : option (list string);
  is_clean : bool;
  ahead_behind : option (gmap string Z)
}.

(** Modelled from the spec: the class [GitDiff] of the missing
    [git_models.py]. *)
Record GitDiff : Type := mkGitDiff {
  files : list FileStatus;
  total_insertions : Z;
  total_deletions : Z;
  summary : string;
  is_merge : bool
}.

(** Modelled from the spec: the class [AssistantResponse] of the missing
    [git_models.py]; the fields [explanation] and [confidence] carry the
    prefix [response_] here. *)
Record AssistantResponse : Type := mkResponse {
  interpretation : string;
  suggested_commands : list GitCommand;
  response_explanation : string;
  warnings : option (list string);
  alternatives : option (list GitCommand);
  response_confidence : Q
}.

(** The invariant the design document puts on a snapshot, and that
    [GitStateAnalyzer.get_current_state] establishes. *)
Definition consistent (st : GitRepositoryState) : Prop :=
  is_clean st =
    (Nat.eqb (length (staged_files st)) 0
     && Nat.eqb (length (unstaged_files st)) 0
     && Nat.eqb (length (untracked_files st)) 0).

End Models.

(** Python's truth value of a list, a string and an optional value. *)
Module Truth.

Definition of_list {A} (l : list A) : bool :=
  match l with [] => false | _ :: _ => true end.

Definition of_str (s : string) : bool :=
  match s with EmptyString => false | String _ _ => true end.

Definition of_opt_list {A} (l : option (list A)) : bool :=
  match l with Some l' => of_list l' | None => false end.

(** a dict is true when it has a key *)
Definition of_dict (d : gmap string Z) : bool := negb (bool_decide (d = ∅)).

End Truth.

(** ** [GPTModelService] *)

Module GPTModelService.
Import Exn.

(** float literals stand as the decimal fractions written in the source *)
Record InferenceOptions : Type := mkOptions {
  max_length : Z;
  temperature : Q;
  do_sample : bool;
  top_p : Q;
  top_k : Z;
  num_return_sequences : Z;
  pad_token_id : option Z
}.

Definition default_options : InferenceOptions :=
  mkOptions 512 (7 # 10) true (9 # 10) 50 1 None.

(** The tokenizer and the network, between encoding the prompt and cutting
    the prompt off the decoded output: the text generated after the prompt,
    or the text of the exception raised on the way. *)
Definition pipeline : Type := string -> InferenceOptions -> string + string.

Record t : Type := mk {
  is_loaded : bool;
  model : option pipeline      (* [self.model] and [self.tokenizer] *)
}.

Definition is_model_ready (self : t) : bool :=
  is_loaded self && match model self with Some _ => true | None => false end.

Definition generate_response (self : t) (prompt : string)
    (options : option InferenceOptions) : result string :=
  match is_model_ready self, model self with
  | true, Some run =>
      let options := match options with Some o => o | None => default_options end in
      match run prompt options with
      | inl text =>
          let generated_text := Text.strip text in
          Ok (if Truth.of_str generated_text then generated_text
              else "I understand your request. Let me help you with that Git operation.")
      | inr e => Ok ("I encountered an error processing your request: " ++ e)
      end
  | _, _ => Raise (RuntimeError "Model not initialized. Call initialize() first.")
  end.

(** the dictionary [NLPService._build_git_context] makes *)
Record git_context : Type := mkContext {
  ctx_current_branch : string;
  ctx_staged_files : list string;
  ctx_unstaged_files : list string;
  ctx_untracked_files : list string;
  ctx_is_clean : bool;
  ctx_has_conflicts : bool;
  ctx_ahead_behind : option (gmap string Z);
  ctx_recent_commits : list string
}.

Definition nl : string := Text.chr Text.newline.

Definition _build_git_prompt (user_query : string) (c : git_context) : string :=
  let p1 := if Truth.of_str (ctx_current_branch c)
            then ["Current branch: " ++ ctx_current_branch c] else [] in
  let p2 := if Truth.of_list (ctx_staged_files c)
            then ["Staged files: " ++ Text.str_of_nat (length (ctx_staged_files c))] else [] in
  let p3 := if Truth.of_list (ctx_unstaged_files c)
            then ["Modified files: " ++ Text.str_of_nat (length (ctx_unstaged_files c))] else [] in
  let p4 := if Truth.of_list (ctx_untracked_files c)
            then ["Untracked files: " ++ Text.str_of_nat (length (ctx_untracked_files c))] else [] in
  let context_parts := (p1 ++ p2 ++ p3 ++ p4)%list in
  let context_str := if Truth.of_list context_parts
                     then Text.join " | " context_parts else "Clean repository" in
  "Git Assistant: I'm an AI that helps with Git operations." ++ nl ++ nl
  ++ "Repository Status: " ++ context_str ++ nl ++ nl
  ++ "User Question: " ++ user_query ++ nl ++ nl
  ++ "Git Assistant Response:".

Definition generate_git_response (self : t) (user_query : string)
    (c : git_context) : result string :=
  let prompt := _build_git_prompt user_query c in
  let options := mkOptions 400 (6 # 10) true (8 # 10) 50 1 None in
  generate_response self prompt (Some options).

Definition generate_commit_message (self : t) (diff_summary : string)
    (file_changes : list string) : result string :=
  let files_str := Text.join ", " (firstn 5 file_changes) in
  let files_str :=
    if (5 <? length file_changes)%nat
    then files_str ++ " and " ++ Text.str_of_nat (length file_changes - 5) ++ " more files"
    else files_str in
  let prompt :=
    "Generate a concise Git commit message for these changes:" ++ nl ++ nl
    ++ "Files changed: " ++ files_str ++ nl
    ++ "Summary: " ++ diff_summary ++ nl ++ nl
    ++ "Commit message (use conventional commits format):" in
  let options := mkOptions 200 (5 # 10) true (7 # 10) 50 1 None in
  let! response := generate_response self prompt (Some options) in
  let commit_message := Text.strip (Text.first_line (Text.strip response)) in
  let commit_message :=
    if (72 <? String.length commit_message)%nat
    then Text.take 69 commit_message ++ "..." else commit_message in
  Ok (if Truth.of_str commit_message then commit_message else "Update files").

End GPTModelService.

(** ** [GitStateAnalyzer], as far as [NLPService] calls it *)

Module GitStateAnalyzer.
Import Exn Models.

(** What the working tree answers when asked: both methods read the
    repository through the git library and may raise. *)
Record t : Type := mk {
  get_current_state : result GitRepositoryState;
  analyze_diff : option string -> result GitDiff
}.

End GitStateAnalyzer.

(** ** [NLPService] *)

Module NLPService.
Import Exn Models Re.

Record t : Type := mk {
  gpt_service : GPTModelService.t;
  git_analyzer : GitStateAnalyzer.t
}.

(** [.*] *)
Definition anything : regex := Star dot.

(** [self.command_patterns]: a dict literal, iterated in the order its
    keys are written. *)
Definition command_patterns : list (string * list regex) :=
  [ ("commit",
      [ seq [Bound; words 1 "commit" ["save"; "record"]; Bound; anything;
             Bound; words 2 "changes" ["files"; "work"]; Bound];
        seq [Bound; lit "commit"; Bound];
        seq [Bound; lit "save"; anything; lit "changes"; Bound] ]);
    ("push",
      [ seq [Bound; words 1 "push" ["upload"; "send"]; Bound; anything;
             Bound; words 2 "remote" ["origin"; "upstream"]; Bound];
        seq [Bound; lit "push"; Bound];
        seq [Bound; lit "upload"; anything; lit "changes"; Bound] ]);
    ("pull",
      [ seq [Bound; words 1 "pull" ["fetch"; "download"; "get"; "sync"]; Bound;
             anything; Bound; words 2 "changes" ["updates"; "remote"]; Bound];
        seq [Bound; lit "pull"; Bound];
        seq [Bound; lit "get"; anything; lit "changes"; Bound] ]);
    ("branch",
      [ seq [Bound; words 1 "create" ["make"; "new"]; Bound; anything;
             Bound; lit "branch"; Bound];
        seq [Bound; words 1 "switch" ["change"; "checkout"]; Bound; anything;
             Bound; lit "branch"; Bound];
        seq [Bound; lit "branch"; Bound] ]);
    ("merge",
      [ seq [Bound; lit "merge"; Bound; anything; Bound; lit "branch"; Bound];
        seq [Bound; lit "merge"; Bound];
        seq [Bound; lit "combine"; anything; lit "branches"; Bound] ]);
    ("status",
      [ seq [Bound;
             Group 1 (alt (lit "status")
                        [lit "state"; seq [lit "what"; anything; lit "changed"]]);
             Bound];
        seq [Bound; lit "check"; anything; lit "status"; Bound];
        seq [Bound; lit "what"; anything; lit "files"; Bound] ]);
    ("undo",
      [ seq [Bound; words 1 "undo" ["revert"; "rollback"; "reset"]; Bound];
        seq [Bound; lit "undo"; anything; lit "commit"; Bound];
        seq [Bound; lit "go"; anything; lit "back"; Bound] ]);
    ("stash",
      [ seq [Bound; words 1 "stash" ["save"; "store"]; Bound; anything;
             Bound; words 2 "changes" ["work"]; Bound];
        seq [Bound; lit "stash"; Bound];
        seq [Bound; lit "temporary"; anything; lit "save"; Bound] ]) ].

(** [[a-zA-Z0-9_/-]] *)
Definition name_char (c : ascii) : bool :=
  Text.between 97 122 c || Text.between 65 90 c || Text.between 48 57 c
  || Ascii.eqb c "_" || Ascii.eqb c "/" || Ascii.eqb c "-".

(** the class of the two quote characters, double and single *)
Definition quote (c : ascii) : bool :=
  Ascii.eqb c Text.dquote || Ascii.eqb c Text.squote.

(** [branch\s+([a-zA-Z0-9_/-]+)] *)
Definition branch_pattern : regex :=
  seq [lit "branch"; Plus Text.is_space; Group 1 (Plus name_char)].

(** [message\s+Q([^Q]+)Q], where Q is the class of the two quotes *)
Definition message_pattern : regex :=
  seq [lit "message"; Plus Text.is_space; One quote;
       Group 1 (Plus (fun c => negb (quote c))); One quote].

(** [merge\s+([a-zA-Z0-9_/-]+)] *)
Definition merge_pattern : regex :=
  seq [lit "merge"; Plus Text.is_space; Group 1 (Plus name_char)].

(** the dict [_analyze_intent] returns; 0.8 and 0.5 are kept as the
    decimal fractions written in the source *)
Record Intent : Type := mkIntent {
  action : string;
  target : string;
  confidence : Q;
  raw_query : string
}.

Definition matched_confidence : Q := 8 # 10.
Definition default_confidence : Q := 5 # 10.

(** [m.group(1)] of a match object (the group took part in the match in
    each of the three patterns) *)
Definition group1 (m : match_obj) : string :=
  match group 1 m with Some s => s | None => EmptyString end.

Definition _extract_target (query action : string) : string :=
  let query_lower := Text.lower query in
  if String.eqb action "branch" then
    match search branch_pattern query_lower with
    | Some branch_match => group1 branch_match
    | None => "new branch"
    end
  else if String.eqb action "commit" then
    match search message_pattern query with
    | Some msg_match => group1 msg_match
    | None => "changes"
    end
  else if String.eqb action "merge" then
    match search merge_pattern query_lower with
    | Some merge_match => group1 merge_match
    | None => "branch"
    end
  else "repository".

(** the inner loop of [_analyze_intent]: the patterns of one command *)
Fixpoint try_patterns (query query_lower command : string)
    (patterns : list regex) : option Intent :=
  match patterns with
  | [] => None
  | pattern :: patterns' =>
      if found (search pattern query_lower)
      then Some (mkIntent command (_extract_target query command)
                   matched_confidence query)
      else try_patterns query query_lower command patterns'
  end.

(** the outer loop: the commands in the order of the dict *)
Fixpoint try_commands (query query_lower : string)
    (items : list (string * list regex)) : option Intent :=
  match items with
  | [] => None
  | (command, patterns) :: items' =>
      match try_patterns query query_lower command patterns with
      | Some intent => Some intent
      | None => try_commands query query_lower items'
      end
  end.

Definition _analyze_intent (query : string) : Intent :=
  let query_lower := Text.lower query in
  match try_commands query query_lower command_patterns with
  | Some intent => intent
  | None => mkIntent "help" "general" default_confidence query
  end.

Definition _build_git_context (state : GitRepositoryState)
    : GPTModelService.git_context :=
  GPTModelService.mkContext
    (current_branch state)
    (map path (staged_files state))
    (map path (unstaged_files state))
    (untracked_files state)
    (is_clean state)
    (match conflicted_files state with Some _ => true | None => false end)
    (ahead_behind state)
    (map message (firstn 3 (recent_commits state))).

(** [key in args] for a list of strings *)
Definition mem (x : string) (l : list string) : bool := existsb (String.eqb x) l.

(** [d.get(key, dflt)] *)
Definition dict_get {V} (d : gmap string V) (key : string) (dflt : V) : V :=
  default dflt (d !! key).

Definition quoted (s : string) : string :=
  Text.chr Text.dquote ++ s ++ Text.chr Text.dquote.

Local Open Scope list_scope.

Definition _generate_commit_commands (self : t) (context : GitRepositoryState)
    (target : string) : result (list GitCommand) :=
  let commands : list GitCommand := [] in
  (* If no files are staged, suggest adding files first *)
  let commands :=
    if negb (Truth.of_list (staged_files context))
       && (Truth.of_list (unstaged_files context)
           || Truth.of_list (untracked_files context))
    then commands ++ [mkGitCommand "git" ["add"; "."]
                        "Stage all changes for commit" SAFE false
                        (Some "First, let's stage your changes")]
    else commands in
  if negb (String.eqb target "changes") then
    (* User provided a commit message *)
    Ok (commands ++ [mkGitCommand "git" ["commit"; "-m"; quoted target]
                       ("Commit changes with message: " ++ target)%string
                       SAFE false None])
  else
    (* Generate commit message using AI *)
    if Truth.of_list (staged_files context) || Truth.of_list (unstaged_files context)
    then
      let! diff := GitStateAnalyzer.analyze_diff (git_analyzer self) None in
      let! ai_message :=
        GPTModelService.generate_commit_message (gpt_service self)
          (summary diff) (map path (files diff)) in
      Ok (commands ++ [mkGitCommand "git" ["commit"; "-m"; quoted ai_message]
                         ("Commit with AI-generated message: " ++ ai_message)%string
                         SAFE false None])
    else Ok commands.

Definition _generate_push_commands (context : GitRepositoryState)
    : list GitCommand :=
  let commands : list GitCommand := [] in
  (* Check if there are commits to push; the subscript ['ahead'] in the
     first branch is read with the same lookup, the key being there when
     the test succeeds *)
  if match ahead_behind context with
     | Some d => Truth.of_dict d && (0 <? dict_get d "ahead" 0%Z)%Z
     | None => false
     end
  then
    commands ++ [mkGitCommand "git" ["push"]
                   "Push commits to remote repository" SAFE false
                   (Some ("Push "
                          ++ Text.str_of_Z
                               (match ahead_behind context with
                                | Some d => dict_get d "ahead" 0%Z
                                | None => 0%Z
                                end)
                          ++ " commit(s) to remote")%string)]
  else
    commands ++ [mkGitCommand "git" ["push"; "-u"; "origin"; current_branch context]
                   "Push current branch to remote (first time)" MODERATE true
                   (Some "This will create the branch on the remote repository")].

Definition _generate_pull_commands (context : GitRepositoryState)
    : list GitCommand :=
  let commands : list GitCommand := [] in
  (* Check if working directory is clean *)
  let commands :=
    if negb (is_clean context)
    then commands ++ [mkGitCommand "git" ["stash"]
                        "Stash local changes before pulling" SAFE true
                        (Some "Stash changes to avoid conflicts during pull")]
    else commands in
  commands ++ [mkGitCommand "git" ["pull"]
                 "Pull latest changes from remote" MODERATE false
                 (Some "Fetch and merge changes from remote repository")].

Definition _generate_branch_commands (context : GitRepositoryState)
    (target query : string) : list GitCommand :=
  let commands : list GitCommand := [] in
  let query_lower := Text.lower query in
  if Text.contains "create" query_lower || Text.contains "new" query_lower then
    (* Create new branch *)
    let branch_name :=
      if negb (String.eqb target "new branch") then target else "feature/new-feature" in
    commands ++ [mkGitCommand "git" ["checkout"; "-b"; branch_name]
                   ("Create and switch to new branch: " ++ branch_name)%string
                   SAFE false None]
  else if Text.contains "switch" query_lower || Text.contains "checkout" query_lower then
    (* Switch to existing branch *)
    commands ++ [mkGitCommand "git" ["checkout"; target]
                   ("Switch to branch: " ++ target)%string
                   MODERATE (negb (is_clean context))
                   (Some "Switching branches with uncommitted changes may lose work")]
  else
    (* List branches *)
    commands ++ [mkGitCommand "git" ["branch"; "-a"]
                   "List all branches" SAFE false None].

Definition _generate_merge_commands (context : GitRepositoryState)
    (target : string) : list GitCommand :=
  let commands : list GitCommand := [] in
  (* Ensure working directory is clean *)
  let commands :=
    if negb (is_clean context)
    then commands ++ [mkGitCommand "git" ["status"]
                        "Check repository status before merge" SAFE false
                        (Some "Clean working directory recommended before merge")]
    else commands in
  commands ++ [mkGitCommand "git" ["merge"; target]
                 ("Merge branch '" ++ target ++ "' into current branch")%string
                 MODERATE true
                 (Some "This will combine changes from both branches")].

Definition _generate_status_commands (context : GitRepositoryState)
    : list GitCommand :=
  [mkGitCommand "git" ["status"] "Show repository status" SAFE false
     (Some "Display current state of your repository")].

Definition soft_reset_args : list string := ["reset"; "--soft"; "HEAD~1"].
Definition hard_reset_args : list string := ["reset"; "--hard"; "HEAD~1"].

Definition _generate_undo_commands (context : GitRepositoryState)
    (query : string) : list GitCommand :=
  let commands : list GitCommand := [] in
  let query_lower := Text.lower query in
  if Text.contains "commit" query_lower then
    if Text.contains "keep" query_lower || Text.contains "save" query_lower then
      (* Undo commit but keep changes *)
      commands ++ [mkGitCommand "git" soft_reset_args
                     "Undo last commit but keep changes staged" MODERATE true
                     (Some "This will undo the commit but preserve your changes")]
    else
      (* Undo commit and changes *)
      commands ++ [mkGitCommand "git" hard_reset_args
                     "Undo last commit and discard changes" DESTRUCTIVE true
                     (Some "⚠️ This will permanently delete your changes!")]
  else
    (* General undo - show options *)
    commands ++ [mkGitCommand "git" ["log"; "--oneline"; "-5"]
                   "Show recent commits to choose what to undo" SAFE false None].

Definition _generate_stash_commands (context : GitRepositoryState)
    : list GitCommand :=
  let commands : list GitCommand := [] in
  if Truth.of_list (unstaged_files context) || Truth.of_list (untracked_files context)
  then
    commands ++ [mkGitCommand "git" ["stash"; "push"; "-m"; "Work in progress"]
                   "Stash current changes" SAFE false
                   (Some "Temporarily save your changes")]
  else
    commands ++ [mkGitCommand "git" ["stash"; "list"]
                   "Show stashed changes" SAFE false None].

Definition _generate_commands (self : t) (intent : Intent) (query : string)
    (context : GitRepositoryState) (ai_response : string)
    : result (list GitCommand) :=
  let commands : list GitCommand := [] in
  let action := action intent in
  let target := target intent in
  if String.eqb action "commit" then
    let! cs := _generate_commit_commands self context target in
    Ok (commands ++ cs)
  else if String.eqb action "push" then
    Ok (commands ++ _generate_push_commands context)
  else if String.eqb action "pull" then
    Ok (commands ++ _generate_pull_commands context)
  else if String.eqb action "branch" then
    Ok (commands ++ _generate_branch_commands context target query)
  else if String.eqb action "merge" then
    Ok (commands ++ _generate_merge_commands context target)
  else if String.eqb action "status" then
    Ok (commands ++ _generate_status_commands context)
  else if String.eqb action "undo" then
    Ok (commands ++ _generate_undo_commands context query)
  else if String.eqb action "stash" then
    Ok (commands ++ _generate_stash_commands context)
  else
    (* Default help command *)
    Ok (commands ++ [mkGitCommand "git" ["status"] "Show repository status"
                       SAFE false
                       (Some "Let's start by checking your repository status")]).

Definition _generate_explanation (intent : Intent) (query : string)
    (context : GitRepositoryState) (ai_response : string) : string :=
  let action := action intent in
  let explanations : gmap string string :=
    list_to_map
      [ ("commit",
          ("I'll help you commit your changes. You have "
           ++ Text.str_of_nat (length (staged_files context))
           ++ " staged files and "
           ++ Text.str_of_nat (length (unstaged_files context))
           ++ " modified files.")%string);
        ("push", "I'll help you push your changes to the remote repository.");
        ("pull", "I'll help you pull the latest changes from the remote repository.");
        ("branch", "I'll help you work with Git branches.");
        ("merge", "I'll help you merge branches safely.");
        ("status", "I'll show you the current status of your repository.");
        ("undo", "I'll help you undo changes safely.");
        ("stash", "I'll help you stash your current work.") ] in
  let base_explanation :=
    dict_get explanations action "I'll help you with that Git operation." in
  (* Add AI response if it provides additional context *)
  if Truth.of_str ai_response && (10 <? String.length ai_response)%nat
  then (base_explanation ++ " " ++ ai_response)%string
  else base_explanation.

Definition destructive_warning : string :=
  "⚠️ This operation will permanently delete data. Make sure you have backups.".
Definition uncommitted_warning : string :=
  "💡 You have uncommitted changes. Consider committing them first.".
Definition conflict_warning : string :=
  "⚠️ You have unresolved merge conflicts. Resolve them before proceeding.".

Definition _check_warnings (commands : list GitCommand)
    (context : GitRepositoryState) : option (list string) :=
  let warnings : list string := [] in
  (* Check for destructive operations *)
  let destructive_commands :=
    List.filter (fun cmd => RiskLevel_eqb (risk_level cmd) DESTRUCTIVE) commands in
  let warnings :=
    if Truth.of_list destructive_commands
    then warnings ++ [destructive_warning] else warnings in
  (* Check for uncommitted changes *)
  let warnings :=
    if negb (is_clean context) then
      let push_commands := List.filter (fun cmd => mem "push" (args cmd)) commands in
      if Truth.of_list push_commands
      then warnings ++ [uncommitted_warning] else warnings
    else warnings in
  (* Check for merge conflicts *)
  let warnings :=
    if Truth.of_opt_list (conflicted_files context)
    then warnings ++ [conflict_warning] else warnings in
  if Truth.of_list warnings then Some warnings else None.

Definition soft_reset_alternative : GitCommand :=
  mkGitCommand "git" soft_reset_args
    "Safer option: Undo commit but keep changes" MODERATE true None.

(** the loop of [_generate_alternatives] over the commands *)
Fixpoint collect_alternatives (alternatives commands : list GitCommand)
    : list GitCommand :=
  match commands with
  | [] => alternatives
  | cmd :: commands' =>
      let alternatives :=
        if RiskLevel_eqb (risk_level cmd) DESTRUCTIVE then
          if mem "reset" (args cmd) && mem "--hard" (args cmd)
          then alternatives ++ [soft_reset_alternative]
          else alternatives
        else alternatives in
      collect_alternatives alternatives commands'
  end.

Definition _generate_alternatives (commands : list GitCommand)
    (context : GitRepositoryState) : option (list GitCommand) :=
  let alternatives := collect_alternatives [] commands in
  if Truth.of_list alternatives then Some alternatives else None.

Definition process_user_query (self : t) (query : string)
    (context : option GitRepositoryState) : result AssistantResponse :=
  (* Get current Git context if not provided *)
  let! context :=
    match context with
    | None => GitStateAnalyzer.get_current_state (git_analyzer self)
    | Some c => Ok c
    end in
  (* Analyze user intent *)
  let intent := _analyze_intent query in
  (* Build context for GPT *)
  let git_context := _build_git_context context in
  (* Generate AI response *)
  let! ai_response :=
    GPTModelService.generate_git_response (gpt_service self) query git_context in
  (* Parse AI response and generate commands *)
  let! suggested_commands :=
    _generate_commands self intent query context ai_response in
  (* Generate explanation *)
  let explanation := _generate_explanation intent query context ai_response in
  (* Check for warnings *)
  let warnings := _check_warnings suggested_commands context in
  (* Generate alternatives if needed *)
  let alternatives := _generate_alternatives suggested_commands context in
  Ok (mkResponse
        ("I understand you want to " ++ action intent ++ " " ++ target intent)%string
        suggested_commands explanation warnings alternatives
        (confidence intent)).

End NLPService.

(** ** Words of the design document, as definitions *)

Module Design.
Import Models Re NLPService.

(** a category matches a (lower-cased) query when one of its patterns is
    found in it *)
Definition category_matches (query_lower : string)
    (item : string * list regex) : bool :=
  existsb (fun pattern => found (search pattern query_lower)) (snd item).

(** the categories that match, in the declared order *)
Definition matching_categories (query : string) : list string :=
  map fst (List.filter (category_matches (Text.lower query)) command_patterns).

(** [help], target "general", the fallback confidence *)
Definition help_intent (query : string) : Intent :=
  mkIntent "help" "general" default_confidence query.

Fixpoint all_chars (p : ascii -> bool) (s : string) : bool :=
  match s with
  | EmptyString => true
  | String c s' => p c && all_chars p s'
  end.

(** empty or whitespace-only *)
Definition blank (query : string) : bool := all_chars Text.is_space query.

(** destructive implies confirmation *)
Definition confirms_if_destructive (c : GitCommand) : Prop :=
  risk_level c = DESTRUCTIVE -> requires_confirmation c = true.

(** the risk tier and the confirmation flag of a command *)
Definition risk_of (c : GitCommand) : RiskLevel * bool :=
  (risk_level c, requires_confirmation c).

(** what a response says about risk, command by command *)
Definition risk_profile (r : AssistantResponse) : list (RiskLevel * bool) :=
  map risk_of (suggested_commands r).

Definition command_count (r : AssistantResponse) : nat :=
  length (suggested_commands r).

(** the three rules of the auditor *)
Definition has_destructive (commands : list GitCommand) : bool :=
  existsb (fun cmd => RiskLevel_eqb (risk_level cmd) DESTRUCTIVE) commands.
Definition has_push (commands : list GitCommand) : bool :=
  existsb (fun cmd => mem "push" (args cmd)) commands.
Definition has_conflicts (context : GitRepositoryState) : bool :=
  Truth.of_opt_list (conflicted_files context).
Definition some_rule_triggers (commands : list GitCommand)
    (context : GitRepositoryState) : bool :=
  has_destructive commands
  || (negb (is_clean context) && has_push commands)
  || has_conflicts context.

(** Static reading of a pattern: [opens_with P r] holds when every match
    of [r] starts by consuming a character in [P]. *)
Fixpoint zero_width (r : regex) : bool :=
  match r with
  | Eps | Bound => true
  | Cat r1 r2 => zero_width r1 && zero_width r2
  | _ => false
  end.

Fixpoint opens_with (P : ascii -> bool) (r : regex) : bool :=
  match r with
  | Lit c => P c
  | Cat r1 r2 => opens_with P r1 || (zero_width r1 && opens_with P r2)
  | Or r1 r2 => opens_with P r1 && opens_with P r2
  | Group _ r' => opens_with P r'
  | _ => false
  end.

(** [a-z] *)
Definition small_letter (c : ascii) : bool := Text.between 97 122 c.

(** the cursor stands before no character of [P] *)
Definition blocked (P : ascii -> bool) (cu : cursor) : Prop :=
  match rest cu with
  | EmptyString => True
  | String c _ => P c = false
  end.

End Design.

(** ** Named commands and sample inputs *)

Module Sample.
Import Exn Models NLPService.

Definition stage_all_command : GitCommand :=
  mkGitCommand "git" ["add"; "."] "Stage all changes for commit" SAFE false
    (Some "First, let's stage your changes").

Definition generated_commit_command (msg : string) : GitCommand :=
  mkGitCommand "git" ["commit"; "-m"; quoted msg]
    ("Commit with AI-generated message: " ++ msg) SAFE false None.

Definition plain_push_command (ahead : Z) : GitCommand :=
  mkGitCommand "git" ["push"] "Push commits to remote repository" SAFE false
    (Some ("Push " ++ Text.str_of_Z ahead ++ " commit(s) to remote")).

Definition upstream_push_command (branch : string) : GitCommand :=
  mkGitCommand "git" ["push"; "-u"; "origin"; branch]
    "Push current branch to remote (first time)" MODERATE true
    (Some "This will create the branch on the remote repository").

Definition hard_reset_command : GitCommand :=
  mkGitCommand "git" hard_reset_args
    "Undo last commit and discard changes" DESTRUCTIVE true
    (Some "⚠️ This will permanently delete your changes!").


(** three language models: one that writes, one that writes nothing, one
    that fails inside the [try] block *)
Definition writing_model : GPTModelService.pipeline :=
  fun _ _ => inl "  feat: update a.txt  ".
Definition silent_model : GPTModelService.pipeline := fun _ _ => inl EmptyString.
Definition failing_model : GPTModelService.pipeline :=
  fun _ _ => inr "CUDA out of memory".

Definition gpt_writing : GPTModelService.t :=
  GPTModelService.mk true (Some writing_model).
Definition gpt_silent : GPTModelService.t :=
  GPTModelService.mk true (Some silent_model).
Definition gpt_failing : GPTModelService.t :=
  GPTModelService.mk true (Some failing_model).

Definition a_txt : FileStatus := mkFileStatus "a.txt" "modified" None None None.

Definition one_file_diff : GitDiff :=
  mkGitDiff [mkFileStatus "a.txt" "modified" (Some 1%Z) (Some 0%Z) (Some 1%Z)]
    1 0 "1 file changed, 1 insertions(+), 0 deletions(-)" false.

Definition clean_tree : GitRepositoryState :=
  mkState "main" [] [] [] [] [] None true None.

(** nothing staged, [a.txt] modified *)
Definition modified_tree : GitRepositoryState :=
  mkState "main" [] [a_txt] [] [] [] None false None.

(** three commits ahead of the upstream *)
Definition ahead_tree : GitRepositoryState :=
  mkState "main" [] [] [] [] [] None true
    (Some {[ "ahead" := 3%Z; "behind" := 0%Z ]}).

(** level with the upstream *)
Definition level_tree : GitRepositoryState :=
  mkState "topic" [] [] [] [] [] None true
    (Some {[ "ahead" := 0%Z; "behind" := 2%Z ]}).

(** an unresolved merge *)
Definition conflicted_tree : GitRepositoryState :=
  mkState "main" [] [] [] [] [] (Some ["x.txt"]) true None.

Definition analyzer : GitStateAnalyzer.t :=
  GitStateAnalyzer.mk (Ok modified_tree) (fun _ => Ok one_file_diff).

Definition service (g : GPTModelService.t) : t := mk g analyzer.

End Sample.

(** ** [GitStateAnalyzer]: building the snapshot

    [src/services/git_analyzer.py] reads the repository through the git
    library.  What the library answers is a record; the methods below are
    the code that turns the answers into a snapshot. *)

Module Analysis.
Import Exn Models.

(** Modelled from the spec: the enum [WorkflowType] of the missing
    [git_models.py], with the four members [detect_workflow] returns. *)
Inductive WorkflowType : Type := GIT_FLOW | GITHUB_FLOW | GITLAB_FLOW | CUSTOM.

(** [self.repo.active_branch.name]: a name, the [TypeError] of a detached
    head, or another exception *)
Inductive branch_answer : Type :=
| Attached (name : string)
| Detached
| Failing (e : exn).

Record repo : Type := mkRepo {
  active_branch : branch_answer;
  staged : result (list FileStatus);        (* [self._get_staged_files()] *)
  unstaged : result (list FileStatus);      (* [self._get_unstaged_files()] *)
  untracked : result (list string);         (* [list(self.repo.untracked_files)] *)
  remote_list : result (list Remote);       (* [self._get_remotes()] *)
  commits : list Commit;                    (* [self._get_recent_commits(limit=10)],
                                               which catches every exception *)
  merge_head : result bool;                 (* does [MERGE_HEAD] exist in [git_dir] *)
  index_entries : result (list (string * nat));
                                            (* for each key of [index.entries], its
                                               path [item[0]] and the [len] of its entry *)
  tracking : result bool;                   (* truth of [active_branch.tracking_branch()] *)
  ahead_commits : result (list string);     (* [list(iter_commits(upstream..branch))] *)
  behind_commits : result (list string)     (* [list(iter_commits(branch..upstream))] *)
}.

Definition _get_conflicted_files (r : repo) : option (list string) :=
  match merge_head r with
  | Ok true =>
      match index_entries r with
      | Ok entries =>
          (* Multiple stages indicate conflict *)
          let conflicted :=
            map fst (List.filter (fun item => (1 <? snd item)%nat) entries) in
          if Truth.of_list conflicted then Some conflicted else None
      | Raise _ => None
      end
  | Ok false => None
  | Raise _ => None
  end.

Definition _get_ahead_behind_info (r : repo) : option (gmap string Z) :=
  match tracking r with
  | Ok true =>
      match ahead_commits r with
      | Ok ahead =>
          match behind_commits r with
          | Ok behind =>
              Some (<["behind" := Z.of_nat (length behind)]>
                      (<["ahead" := Z.of_nat (length ahead)]> ∅))
          | Raise _ => None
          end
      | Raise _ => None
      end
  | Ok false => None
  | Raise _ => None
  end.

Definition get_current_state (r : repo) : result GitRepositoryState :=
  let! current_branch :=
    match active_branch r with
    | Attached name => Ok name
    | Detached => Ok "HEAD (detached)"
    | Failing e => Raise e
    end in
  (* Get file statuses *)
  let! staged_files := staged r in
  let! unstaged_files := unstaged r in
  let! untracked_files := untracked r in
  (* Get remotes *)
  let! remotes := remote_list r in
  (* Get recent commits *)
  let recent_commits := commits r in
  (* Check for conflicts *)
  let conflicted_files := _get_conflicted_files r in
  (* Check if repository is clean *)
  let is_clean :=
    Nat.eqb (length staged_files) 0 && Nat.eqb (length unstaged_files) 0
    && Nat.eqb (length untracked_files) 0 in
  (* Get ahead/behind info *)
  let ahead_behind := _get_ahead_behind_info r in
  Ok (mkState current_branch staged_files unstaged_files untracked_files
        remotes recent_commits conflicted_files is_clean ahead_behind).

(** [detect_workflow], on the names of [self.repo.branches] *)
Definition detect_workflow (branches : list string) : WorkflowType :=
  let after_git_flow :=
    let after_github_flow :=
      (* Check for GitLab Flow pattern *)
      if existsb (fun branch => NLPService.mem branch ["production"; "staging"]) branches
      then GITLAB_FLOW
      else CUSTOM in
    (* Check for GitHub Flow pattern (feature branches to main) *)
    if NLPService.mem "main" branches || NLPService.mem "master" branches then
      let feature_branches :=
        List.filter (fun b => Text.contains "/" b || Text.startswith "feature" b)
          branches in
      if Truth.of_list feature_branches then GITHUB_FLOW else after_github_flow
    else after_github_flow in
  (* Check for GitFlow pattern *)
  if existsb (fun branch => Text.startswith "feature/" branch
                            || Text.startswith "hotfix/" branch
                            || Text.startswith "release/" branch) branches
  then if NLPService.mem "develop" branches then GIT_FLOW else after_git_flow
  else after_git_flow.

(** the analyzer [NLPService] holds, over a repository and a diff analysis *)
Definition analyzer_of (r : repo) (analyze_diff : option string -> result GitDiff)
    : GitStateAnalyzer.t :=
  GitStateAnalyzer.mk (get_current_state r) analyze_diff.

End Analysis.

(** ** Further words for the properties *)

Module Facts.
Import Exn Models Re NLPService Design.

(** [A-Z] *)
Definition capital (c : ascii) : bool := Text.between 65 90 c.

(** [a-z0-9_/-]: a name character that is no capital *)
Definition plain_name_char (c : ascii) : bool :=
  name_char c && negb (capital c).

(** a non-empty string of characters in [p] *)
Definition word_of (p : ascii -> bool) (s : string) : Prop :=
  s <> EmptyString /\ all_chars p s = true.

(** the nine actions *)
Definition actions : list string :=
  ["commit"; "push"; "pull"; "branch"; "merge"; "status"; "undo"; "stash"; "help"].

(** [\bcommit\b] *)
Definition whole_word_commit : regex := seq [Bound; lit "commit"; Bound].

Definition is_destructive (c : GitCommand) : bool :=
  RiskLevel_eqb (risk_level c) DESTRUCTIVE.

(** a destructive command with [reset] and [--hard] among its arguments *)
Definition is_hard_reset (c : GitCommand) : bool :=
  is_destructive c && mem "reset" (args c) && mem "--hard" (args c).

Definition count_if {A} (f : A -> bool) (l : list A) : nat :=
  length (List.filter f l).

(** [l] keeps some of the elements of [full], in the order of [full] *)
Fixpoint sublist_of (l full : list string) : bool :=
  match l, full with
  | [], _ => true
  | _ :: _, [] => false
  | x :: l', y :: full' =>
      if String.eqb x y then sublist_of l' full' else sublist_of l full'
  end.

Definition no_line_feed (c : ascii) : bool := negb (Ascii.eqb c Text.newline).

Definition stash_before_pull : GitCommand :=
  mkGitCommand "git" ["stash"] "Stash local changes before pulling" SAFE true
    (Some "Stash changes to avoid conflicts during pull").

Definition not_initialized : exn :=
  RuntimeError "Model not initialized. Call initialize() first.".

Definition explicit_commit_command (msg : string) : GitCommand :=
  mkGitCommand "git" ["commit"; "-m"; quoted msg]
    ("Commit changes with message: " ++ msg) SAFE false None.

(** a command line: the program [git] and at least one argument *)
Definition git_invocation (c : GitCommand) : Prop :=
  command c = "git" /\ args c <> [].

(** confirmation goes with a moderate or destructive risk, or else the
    command is the stash before a pull *)
Definition confirmation_is_justified (c : GitCommand) : Prop :=
  requires_confirmation c = true ->
  risk_level c = SAFE -> c = stash_before_pull.

(** no file of any kind in the snapshot *)
Definition no_files (st : GitRepositoryState) : Prop :=
  staged_files st = [] /\ unstaged_files st = [] /\ untracked_files st = [].

Definition returns {A} (x : result A) : Prop := exists a, x = Ok a.

(** the one branch of the synthesizer that reads the diff and asks the
    backend for text: a commit without a message, with staged or unstaged
    files *)
Definition consults_diff (intent : Intent) (st : GitRepositoryState) : bool :=
  String.eqb (action intent) "commit" && String.eqb (target intent) "changes"
  && (Truth.of_list (staged_files st) || Truth.of_list (unstaged_files st)).

Definition warning_order : list string :=
  [destructive_warning; uncommitted_warning; conflict_warning].

(** the four answers of the library the snapshot cannot do without *)
Definition snapshot_readable (r : Analysis.repo) : Prop :=
  (forall e, Analysis.active_branch r <> Analysis.Failing e)
  /\ returns (Analysis.staged r) /\ returns (Analysis.unstaged r)
  /\ returns (Analysis.untracked r) /\ returns (Analysis.remote_list r).

Definition create_branch_command (name : string) : GitCommand :=
  mkGitCommand "git" ["checkout"; "-b"; name]
    ("Create and switch to new branch: " ++ name) SAFE false None.

Definition merge_command (name : string) : GitCommand :=
  mkGitCommand "git" ["merge"; name]
    ("Merge branch '" ++ name ++ "' into current branch") MODERATE true
    (Some "This will combine changes from both branches").

Definition status_before_merge : GitCommand :=
  mkGitCommand "git" ["status"] "Check repository status before merge" SAFE false
    (Some "Clean working directory recommended before merge").

Definition canned_answer : string :=
  "I understand your request. Let me help you with that Git operation.".

(** a model that only ever writes white space *)
Definition writes_nothing (run : GPTModelService.pipeline) : Prop :=
  forall prompt options, exists written,
    run prompt options = inl written /\ blank written = true.

(** a repository in the middle of a merge, two commits ahead *)
Definition merging_repo : Analysis.repo :=
  Analysis.mkRepo (Analysis.Attached "main") (Ok []) (Ok [Sample.a_txt]) (Ok [])
    (Ok []) [] (Ok true) (Ok [("x.txt", 3%nat)]) (Ok true) (Ok ["c1"; "c2"])
    (Ok []).

(** a repository on a detached head, where neither the merge state nor the
    upstream can be read *)
Definition detached_repo : Analysis.repo :=
  Analysis.mkRepo Analysis.Detached (Ok []) (Ok []) (Ok []) (Ok []) []
    (Raise (GitError "no git dir")) (Ok []) (Raise (GitError "detached"))
    (Ok []) (Ok []).

(** some file is staged, unstaged or untracked *)
Definition has_files (st : GitRepositoryState) : Prop :=
  staged_files st <> [] \/ unstaged_files st <> [] \/ untracked_files st <> [].

End Facts.

(** * Properties *)

Import Exn Models Re NLPService Design Sample.

(** ** The matcher *)

Lemma zero_width_exec {A} (r : regex) :
  zero_width r = true ->
  forall (cu : cursor) (k : cursor -> option A),
    exec r cu k = None \/ exec r cu k = k cu.
Proof.
  induction r as [| | | | |r1 IH1 r2 IH2| |]; simpl; try discriminate; intros Hz cu k.
  - now right.
  - destruct (at_boundary cu); [now right|now left].
  - apply andb_true_iff in Hz as [H1 H2].
    destruct (IH1 H1 cu (fun cu' => exec r2 cu' k)) as [E|E]; rewrite E; auto.
Qed.

Lemma opens_with_exec {A} (P : ascii -> bool) (r : regex) :
  opens_with P r = true ->
  forall (cu : cursor) (k : cursor -> option A),
    blocked P cu -> exec r cu k = None.
Proof.
  induction r as [|c| | | |r1 IH1 r2 IH2|r1 IH1 r2 IH2|n r IH];
    simpl; try discriminate; intros Ho cu k Hb.
  - unfold step. unfold blocked in Hb. destruct (rest cu) as [|a s]; [reflexivity|].
    destruct (Ascii.eqb_spec c a) as [->|]; [|reflexivity]. congruence.
  - apply orb_true_iff in Ho as [Ho|Ho].
    + now apply IH1.
    + apply andb_true_iff in Ho as [Hz Ho].
      destruct (zero_width_exec r1 Hz cu (fun cu' => exec r2 cu' k)) as [E|E];
        rewrite E; [reflexivity|now apply IH2].
  - apply andb_true_iff in Ho as [H1 H2].
    rewrite (IH1 H1 cu k Hb), (IH2 H2 cu k Hb). reflexivity.
  - now apply IH.
Qed.

Lemma scan_without (P : ascii -> bool) (r : regex) (s : string) :
  opens_with P r = true ->
  all_chars (fun c => negb (P c)) s = true ->
  forall b, scan r b s = None.
Proof.
  intros Ho. induction s as [|c s IH]; simpl; intros Hs b.
  - unfold try_at. now rewrite (opens_with_exec P r Ho).
  - apply andb_true_iff in Hs as [Hc Hs].
    unfold try_at. rewrite (opens_with_exec P r Ho).
    + now apply IH.
    + unfold blocked; simpl. now apply negb_true_iff.
Qed.

Lemma space_lowers_to_no_letter (c : ascii) :
  Text.is_space c = true -> small_letter (Text.lower_char c) = false.
Proof.
  destruct c as [[] [] [] [] [] [] [] []]; vm_compute; congruence.
Qed.

Lemma blank_lower (q : string) :
  blank q = true ->
  all_chars (fun c => negb (small_letter c)) (Text.lower q) = true.
Proof.
  unfold blank. induction q as [|c q IH]; simpl; [reflexivity|].
  intros H. apply andb_true_iff in H as [Hc Hq].
  rewrite (space_lowers_to_no_letter c Hc). simpl. now apply IH.
Qed.

(** every pattern of the table opens with a small letter *)
Lemma patterns_open_with_letter :
  forallb (fun item => forallb (opens_with small_letter) (snd item))
    command_patterns = true.
Proof. vm_compute. reflexivity. Qed.

(** the matcher on small inputs *)

Example boundary_needs_a_word_edge :
  found (search (seq [Bound; lit "commit"; Bound]) "uncommitted files") = false
  /\ found (search (seq [Bound; lit "commit"; Bound]) "please commit.") = true.
Proof. split; reflexivity. Qed.

Example dot_stops_at_a_line_feed :
  found (search (seq [lit "get"; anything; lit "changes"])
           ("get the" ++ Text.chr Text.newline ++ "changes")) = false.
Proof. reflexivity. Qed.

Example first_group_is_the_longest_name :
  search branch_pattern "a branch   dev-1, please" = Some [(1, "dev-1")]
  /\ search message_pattern "commit with message 'fix the bug' now"
       = Some [(1, "fix the bug")].
Proof. split; reflexivity. Qed.

(** ** The two loops of the classifier *)

Lemma try_patterns_spec (q ql c : string) (ps : list regex) :
  try_patterns q ql c ps =
    if category_matches ql (c, ps)
    then Some (mkIntent c (_extract_target q c) matched_confidence q)
    else None.
Proof.
  unfold category_matches; simpl.
  induction ps as [|p ps IH]; simpl; [reflexivity|].
  destruct (found (search p ql)); simpl; [reflexivity|exact IH].
Qed.

Lemma try_commands_spec (q ql : string) (items : list (string * list regex)) :
  try_commands q ql items =
    match List.filter (category_matches ql) items with
    | [] => None
    | (c, _) :: _ => Some (mkIntent c (_extract_target q c) matched_confidence q)
    end.
Proof.
  induction items as [|[c ps] items IH]; simpl; [reflexivity|].
  rewrite try_patterns_spec.
  destruct (category_matches ql (c, ps)); [reflexivity|exact IH].
Qed.

Lemma no_category_matches_blank (q : string) :
  blank q = true ->
  List.filter (category_matches (Text.lower q)) command_patterns = [].
Proof.
  intros Hb.
  assert (Hnone : forall item, In item command_patterns ->
                    category_matches (Text.lower q) item = false).
  { intros item Hin. unfold category_matches.
    apply not_true_is_false. intros Hex.
    apply existsb_exists in Hex as (p & Hp & Hfound).
    pose proof patterns_open_with_letter as Hall.
    rewrite forallb_forall in Hall. specialize (Hall item Hin).
    rewrite forallb_forall in Hall. specialize (Hall p Hp).
    unfold search in Hfound.
    rewrite (scan_without small_letter p _ Hall (blank_lower q Hb)) in Hfound.
    discriminate. }
  induction command_patterns as [|item items IH]; simpl; [reflexivity|].
  rewrite (Hnone item (or_introl eq_refl)).
  apply IH. intros it Hit. apply Hnone. now right.
Qed.

(** ** Classification *)

(** C3: classification is first-match-wins in the declared category order
    commit, push, pull, branch, merge, status, undo, stash: for every query
    the action returned is the first, in that order, of the categories one
    of whose patterns is found in the lower-cased query (and [help] when
    there is none), whatever other categories match as well. *)
Theorem classify_first_match_wins :
  map fst command_patterns =
    ["commit"; "push"; "pull"; "branch"; "merge"; "status"; "undo"; "stash"]
  /\ forall query : string,
       action (_analyze_intent query) =
         match matching_categories query with
         | first :: _ => first
         | [] => "help"
         end.
Proof.
  split; [reflexivity|].
  intros query. unfold _analyze_intent, matching_categories.
  rewrite try_commands_spec.
  destruct (List.filter _ command_patterns) as [|[c ps] l]; reflexivity.
Qed.

Example save_my_changes_is_commit :
  matching_categories "Save my changes" = ["commit"; "stash"]
  /\ action (_analyze_intent "Save my changes") = "commit".
Proof. split; vm_compute; reflexivity. Qed.

(** C4: a query none of whose categories matches, and in particular the
    empty or whitespace-only query, is classified [help] with target
    "general" and the fallback confidence; every matched query gets the one
    matched confidence; the fallback confidence is strictly the lower. *)
Theorem classify_fallback_is_help :
  (forall query : string,
     matching_categories query = [] -> _analyze_intent query = help_intent query)
  /\ (forall query : string,
        blank query = true -> _analyze_intent query = help_intent query)
  /\ (forall query : string,
        matching_categories query <> [] ->
        confidence (_analyze_intent query) = matched_confidence)
  /\ (default_confidence < matched_confidence)%Q.
Proof.
  assert (Hnone : forall query, matching_categories query = [] ->
                    _analyze_intent query = help_intent query).
  { intros query H. unfold _analyze_intent. rewrite try_commands_spec.
    unfold matching_categories in H.
    destruct (List.filter _ command_patterns) as [|[c ps] l];
      [reflexivity|discriminate]. }
  repeat split.
  - exact Hnone.
  - intros query Hb. apply Hnone. unfold matching_categories.
    now rewrite no_category_matches_blank.
  - intros query H. unfold _analyze_intent. rewrite try_commands_spec.
    unfold matching_categories in H.
    destruct (List.filter _ command_patterns) as [|[c ps] l];
      [contradiction|reflexivity].
Qed.

Lemma classify_fallback_is_help_witness :
  _analyze_intent EmptyString = help_intent EmptyString
  /\ _analyze_intent "   " = help_intent "   "
  /\ _analyze_intent "what is rebasing" = help_intent "what is rebasing"
  /\ confidence (_analyze_intent "push to origin") = matched_confidence.
Proof.
  destruct classify_fallback_is_help as (Hnone & Hblank & Hsome & _).
  split; [|split; [|split]].
  - apply Hblank. reflexivity.
  - apply Hblank. reflexivity.
  - apply Hnone. reflexivity.
  - apply Hsome. vm_compute. discriminate.
Defined.

(** ** The text-generation backend *)

Lemma generate_response_not_ready (g : GPTModelService.t) (prompt : string)
    (options : option GPTModelService.InferenceOptions) :
  GPTModelService.is_model_ready g = false ->
  GPTModelService.generate_response g prompt options =
    Raise (RuntimeError "Model not initialized. Call initialize() first.").
Proof.
  unfold GPTModelService.generate_response. intros ->. reflexivity.
Qed.

Lemma generate_response_ready (g : GPTModelService.t) (prompt : string)
    (options : option GPTModelService.InferenceOptions) :
  GPTModelService.is_model_ready g = true ->
  exists text, GPTModelService.generate_response g prompt options = Ok text.
Proof.
  unfold GPTModelService.generate_response. intros Hr. rewrite Hr.
  unfold GPTModelService.is_model_ready in Hr.
  destruct (GPTModelService.model g) as [run|].
  - destruct (run prompt _) as [text|e]; eauto.
  - rewrite andb_false_r in Hr. discriminate.
Qed.

Lemma generate_commit_message_not_ready (g : GPTModelService.t)
    (diff_summary : string) (file_changes : list string) :
  GPTModelService.is_model_ready g = false ->
  GPTModelService.generate_commit_message g diff_summary file_changes =
    Raise (RuntimeError "Model not initialized. Call initialize() first.").
Proof.
  intros Hr. unfold GPTModelService.generate_commit_message.
  now rewrite generate_response_not_ready.
Qed.

Lemma generate_commit_message_ready (g : GPTModelService.t)
    (diff_summary : string) (file_changes : list string) :
  GPTModelService.is_model_ready g = true ->
  exists msg,
    GPTModelService.generate_commit_message g diff_summary file_changes = Ok msg.
Proof.
  intros Hr. unfold GPTModelService.generate_commit_message.
  edestruct (generate_response_ready g) as [text ->]; [exact Hr|].
  simpl. eauto.
Qed.

(** ** Synthesis *)

Ltac each_command :=
  simpl; repeat constructor; unfold confirms_if_destructive; simpl;
  intros; try reflexivity; try discriminate.

Lemma commit_commands_confirm (self : t) (context : GitRepositoryState)
    (target : string) :
  Forall confirms_if_destructive
    (produced (_generate_commit_commands self context target)).
Proof.
  unfold _generate_commit_commands, bind. cbv zeta.
  repeat case_match; each_command.
Qed.

Lemma alternatives_confirm (commands acc : list GitCommand) :
  Forall confirms_if_destructive acc ->
  Forall confirms_if_destructive (collect_alternatives acc commands).
Proof.
  revert acc. induction commands as [|cmd commands IH]; simpl; intros acc Hacc.
  - exact Hacc.
  - apply IH.
    destruct (RiskLevel_eqb _ _); [|exact Hacc].
    destruct (mem "reset" _ && _); [|exact Hacc].
    apply Forall_app; split; [exact Hacc|each_command].
Qed.

(** C1: every command the synthesizer produces, for every intent, raw query
    and snapshot (and whatever the backend and the analyzer answer), and
    every command the auditor offers as an alternative, for every list of
    commands, requires confirmation when its risk level is destructive. *)
Theorem destructive_requires_confirmation :
  (forall (self : t) (intent : Intent) (query : string)
          (context : GitRepositoryState) (ai_response : string),
     Forall confirms_if_destructive
       (produced (_generate_commands self intent query context ai_response)))
  /\ (forall (commands : list GitCommand) (context : GitRepositoryState),
        Forall confirms_if_destructive
          (default [] (_generate_alternatives commands context))).
Proof.
  split.
  - intros self intent query context ai_response.
    unfold _generate_commands.
    destruct (action intent =? "commit")%string.
    { pose proof (commit_commands_confirm self context (target intent)) as H.
      destruct (_generate_commit_commands self context (target intent)) as [cs|e];
        exact H. }
    destruct (action intent =? "push")%string.
    { unfold _generate_push_commands. case_match; each_command. }
    destruct (action intent =? "pull")%string.
    { unfold _generate_pull_commands. destruct (negb (is_clean context)); each_command. }
    destruct (action intent =? "branch")%string.
    { unfold _generate_branch_commands.
      destruct (Text.contains "create" _ || _); [each_command|].
      destruct (Text.contains "switch" _ || _); each_command. }
    destruct (action intent =? "merge")%string.
    { unfold _generate_merge_commands. destruct (negb (is_clean context)); each_command. }
    destruct (action intent =? "status")%string; [each_command|].
    destruct (action intent =? "undo")%string.
    { unfold _generate_undo_commands.
      destruct (Text.contains "commit" _); [|each_command].
      destruct (Text.contains "keep" _ || _); each_command. }
    destruct (action intent =? "stash")%string.
    { unfold _generate_stash_commands. destruct (Truth.of_list _ || _); each_command. }
    each_command.
  - intros commands context. unfold _generate_alternatives.
    pose proof (alternatives_confirm commands [] (List.Forall_nil _)) as H.
    destruct (Truth.of_list (collect_alternatives [] commands)); [exact H|constructor].
Qed.

(** ** The backend does not steer the synthesis *)

Lemma commit_commands_profile (g1 g2 : GPTModelService.t)
    (an : GitStateAnalyzer.t) (context : GitRepositoryState) (target : string) :
  GPTModelService.is_model_ready g1 = GPTModelService.is_model_ready g2 ->
  rmap (map risk_of) (_generate_commit_commands (mk g1 an) context target) =
  rmap (map risk_of) (_generate_commit_commands (mk g2 an) context target).
Proof.
  intros Hready. unfold _generate_commit_commands. cbv zeta. simpl gpt_service.
  simpl git_analyzer.
  destruct (negb (target =? "changes")%string); [reflexivity|].
  destruct (Truth.of_list (staged_files context) || _); [|reflexivity].
  destruct (GitStateAnalyzer.analyze_diff an None) as [diff|e]; [|reflexivity].
  simpl bind.
  destruct (GPTModelService.is_model_ready g2) eqn:H2.
  - destruct (generate_commit_message_ready g1 (summary diff)
                (map path (files diff)) Hready) as [m1 ->].
    destruct (generate_commit_message_ready g2 (summary diff)
                (map path (files diff)) H2) as [m2 ->].
    simpl. unfold rmap, bind. now rewrite !map_app.
  - now rewrite !generate_commit_message_not_ready.
Qed.

Lemma commands_profile (g1 g2 : GPTModelService.t) (an : GitStateAnalyzer.t)
    (intent : Intent) (query : string) (context : GitRepositoryState)
    (ai1 ai2 : string) :
  GPTModelService.is_model_ready g1 = GPTModelService.is_model_ready g2 ->
  rmap (map risk_of) (_generate_commands (mk g1 an) intent query context ai1) =
  rmap (map risk_of) (_generate_commands (mk g2 an) intent query context ai2).
Proof.
  intros Hready. unfold _generate_commands. cbv zeta.
  destruct (action intent =? "commit")%string.
  - pose proof (commit_commands_profile g1 g2 an context (target intent) Hready) as H.
    destruct (_generate_commit_commands (mk g1 an) _ _) as [c1|e1];
      destruct (_generate_commit_commands (mk g2 an) _ _) as [c2|e2];
      simpl in *; congruence.
  - repeat (destruct (action intent =? _)%string; [reflexivity|]). reflexivity.
Qed.

(** C2, as stated, fails: a backend that was never initialised does not
    answer with a string, it raises, and the query is then not processed at
    all.  On the query "push" and a clean tree the run with the uninitialised
    service stops on the [RuntimeError], the run with an initialised one
    suggests the moderate, confirmed first-time push. *)
Lemma backend_readiness_decides_the_commands :
  ~ (forall (g1 g2 : GPTModelService.t) (an : GitStateAnalyzer.t)
            (query : string) (context : option GitRepositoryState),
       rmap risk_profile (process_user_query (mk g1 an) query context) =
       rmap risk_profile (process_user_query (mk g2 an) query context)).
Proof.
  intros H.
  specialize (H (GPTModelService.mk false None) gpt_silent analyzer "push"
                (Some clean_tree)).
  vm_compute in H. discriminate H.
Qed.

(** C2, amended: two runs on the same query and snapshot whose backends are
    both initialised, or both not, and answer with different text
    (generated, empty, or the message of a failure inside the model) produce
    the same number of suggested commands, with the same risk levels and the
    same confirmation flags, or stop on the same exception. *)
Theorem backend_noninterference (g1 g2 : GPTModelService.t)
    (an : GitStateAnalyzer.t) (query : string)
    (context : option GitRepositoryState) :
  GPTModelService.is_model_ready g1 = GPTModelService.is_model_ready g2 ->
  rmap risk_profile (process_user_query (mk g1 an) query context) =
  rmap risk_profile (process_user_query (mk g2 an) query context)
  /\ rmap command_count (process_user_query (mk g1 an) query context) =
     rmap command_count (process_user_query (mk g2 an) query context).
Proof.
  intros Hready.
  assert (Hprofile :
    rmap risk_profile (process_user_query (mk g1 an) query context) =
    rmap risk_profile (process_user_query (mk g2 an) query context)).
  { unfold process_user_query. simpl gpt_service. simpl git_analyzer.
    destruct (match context with Some c => Ok c | None => _ end) as [c|e];
      [|reflexivity].
    simpl bind at 1. simpl bind at 3.
    unfold GPTModelService.generate_git_response.
    destruct (GPTModelService.is_model_ready g2) eqn:H2.
    - edestruct (generate_response_ready g1) as [ai1 ->]; [exact Hready|].
      edestruct (generate_response_ready g2) as [ai2 ->]; [exact H2|].
      pose proof (commands_profile g1 g2 an (_analyze_intent query) query c ai1 ai2
                    ltac:(congruence)) as H.
      simpl bind.
      destruct (_generate_commands (mk g1 an) _ _ _ _) as [c1|e1];
        destruct (_generate_commands (mk g2 an) _ _ _ _) as [c2|e2];
        simpl in *; unfold risk_profile; simpl; congruence.
    - now rewrite !generate_response_not_ready. }
  split; [exact Hprofile|].
  destruct (process_user_query (mk g1 an) query context) as [r1|e1];
    destruct (process_user_query (mk g2 an) query context) as [r2|e2];
    simpl in *; try congruence.
  injection Hprofile as Hp. unfold command_count, risk_profile in *.
  f_equal. rewrite <- (length_map risk_of (suggested_commands r1)), Hp.
  apply length_map.
Qed.

Lemma backend_noninterference_witness :
  GPTModelService.is_model_ready gpt_silent = GPTModelService.is_model_ready gpt_failing
  /\ rmap risk_profile
       (process_user_query (mk gpt_silent analyzer) "commit my work" None) =
     rmap risk_profile
       (process_user_query (mk gpt_failing analyzer) "commit my work" None).
Proof.
  split; [reflexivity|].
  apply (backend_noninterference gpt_silent gpt_failing analyzer
           "commit my work" None).
  reflexivity.
Defined.

(** ** The commit rule *)



(** ** The push rule *)

(** C6: the push rule emits exactly one command.  When the ahead/behind
    record is present and counts more than zero commits ahead, it is the
    plain push, safe, without confirmation; when the record is absent, or
    counts no commit ahead, it is the push that sets the upstream of the
    current branch, moderate, with confirmation. *)
Theorem push_rule (context : GitRepositoryState) :
  (forall (d : gmap string Z) (n : Z),
     ahead_behind context = Some d -> d !! "ahead" = Some n -> (0 < n)%Z ->
     _generate_push_commands context = [plain_push_command n]
     /\ risk_of (plain_push_command n) = (SAFE, false))
  /\ (ahead_behind context = None
      \/ (exists d : gmap string Z,
            ahead_behind context = Some d
            /\ (d !! "ahead" = None
                \/ exists n : Z, d !! "ahead" = Some n /\ (n <= 0)%Z)) ->
      _generate_push_commands context =
        [upstream_push_command (current_branch context)]
      /\ risk_of (upstream_push_command (current_branch context)) = (MODERATE, true)
      /\ In (current_branch context)
           (args (upstream_push_command (current_branch context)))).
Proof.
  split.
  - intros d n Hab Hd Hn. split; [|reflexivity].
    unfold _generate_push_commands. rewrite Hab.
    unfold Truth.of_dict, dict_get. rewrite Hd. simpl.
    rewrite bool_decide_eq_false_2.
    + simpl. apply Z.ltb_lt in Hn. rewrite Hn. reflexivity.
    + intros ->. rewrite lookup_empty in Hd. discriminate.
  - intros H. split; [|split; [reflexivity|simpl; tauto]].
    unfold _generate_push_commands.
    destruct H as [->|(d & -> & Hd)]; [reflexivity|].
    assert (Hle : (0 <? dict_get d "ahead" 0%Z)%Z = false).
    { unfold dict_get. destruct Hd as [->|(n & -> & Hn)]; simpl.
      - reflexivity.
      - now apply Z.ltb_ge. }
    rewrite Hle, andb_false_r. reflexivity.
Qed.

Lemma push_rule_witness :
  _generate_push_commands ahead_tree = [plain_push_command 3]
  /\ _generate_push_commands clean_tree = [upstream_push_command "main"]
  /\ _generate_push_commands level_tree = [upstream_push_command "topic"].
Proof.
  split; [|split].
  - apply (proj1 (push_rule ahead_tree) {[ "ahead" := 3%Z; "behind" := 0%Z ]} 3%Z).
    + reflexivity.
    + reflexivity.
    + lia.
  - apply (proj2 (push_rule clean_tree)). left. reflexivity.
  - apply (proj2 (push_rule level_tree)). right.
    exists {[ "ahead" := 0%Z; "behind" := 2%Z ]}. split; [reflexivity|].
    right. exists 0%Z. split; [reflexivity|lia].
Defined.

(** ** The auditor *)

Lemma truth_of_filter {A} (f : A -> bool) (l : list A) :
  Truth.of_list (List.filter f l) = existsb f l.
Proof.
  induction l as [|x l IH]; simpl; [reflexivity|].
  destruct (f x); [reflexivity|exact IH].
Qed.

Lemma truth_of_snoc {A} (l : list A) (x : A) : Truth.of_list (l ++ [x])%list = true.
Proof. destruct l; reflexivity. Qed.

(** the three rules, one after the other *)
Lemma check_warnings_spec (commands : list GitCommand)
    (context : GitRepositoryState) :
  _check_warnings commands context =
    let ws :=
      ((if has_destructive commands then [destructive_warning] else [])
       ++ (if negb (is_clean context) && has_push commands
           then [uncommitted_warning] else [])
       ++ (if has_conflicts context then [conflict_warning] else []))%list in
    if Truth.of_list ws then Some ws else None.
Proof.
  unfold _check_warnings, has_destructive, has_push, has_conflicts. cbv zeta.
  rewrite !truth_of_filter.
  destruct (existsb _ commands); destruct (negb (is_clean context));
    destruct (existsb _ commands); destruct (Truth.of_opt_list _); reflexivity.
Qed.

(** C8: when the snapshot lists conflicted files, the warnings are present,
    non-empty, and hold the unresolved-conflicts warning, whatever the
    commands are. *)
Theorem conflicts_always_warn (commands : list GitCommand)
    (context : GitRepositoryState) (conflicted : list string) :
  conflicted_files context = Some conflicted ->
  conflicted <> [] ->
  exists ws : list string,
    _check_warnings commands context = Some ws
    /\ ws <> []
    /\ In conflict_warning ws.
Proof.
  intros Hc Hne. rewrite check_warnings_spec. unfold has_conflicts. rewrite Hc.
  destruct conflicted as [|f fs]; [contradiction|]. simpl Truth.of_opt_list.
  cbv zeta.
  destruct (has_destructive commands);
    destruct (negb (is_clean context) && has_push commands);
    simpl; eexists; (split; [reflexivity|]); (split; [discriminate|]);
    simpl; tauto.
Qed.

Lemma conflicts_always_warn_witness :
  exists ws : list string,
    _check_warnings [hard_reset_command] conflicted_tree = Some ws
    /\ ws <> []
    /\ In conflict_warning ws.
Proof.
  apply (conflicts_always_warn [hard_reset_command] conflicted_tree ["x.txt"]).
  - reflexivity.
  - discriminate.
Defined.

(** C9, as stated, fails: with no command and a clean tree the auditor
    returns [None], not an empty list. *)
Lemma warnings_absent_when_nothing_triggers :
  ~ (forall (commands : list GitCommand) (context : GitRepositoryState),
       exists ws : list string, _check_warnings commands context = Some ws).
Proof.
  intros H. destruct (H [] clean_tree) as [ws Hws].
  vm_compute in Hws. discriminate.
Qed.

(** C9, amended: the warnings are absent ([None]) exactly when no rule
    triggers, and a present, non-empty list when one does; a present empty
    list is never returned. *)
Theorem warnings_absent_or_nonempty (commands : list GitCommand)
    (context : GitRepositoryState) :
  (some_rule_triggers commands context = false ->
   _check_warnings commands context = None)
  /\ (some_rule_triggers commands context = true ->
      exists ws : list string,
        _check_warnings commands context = Some ws /\ ws <> [])
  /\ _check_warnings commands context <> Some [].
Proof.
  rewrite check_warnings_spec. unfold some_rule_triggers. cbv zeta.
  destruct (has_destructive commands);
    destruct (negb (is_clean context) && has_push commands);
    destruct (has_conflicts context); simpl;
    (split; [intros H; first [discriminate|reflexivity]|]);
    (split; [intros H;
             first [discriminate|eexists; split; [reflexivity|discriminate]]
            |discriminate]).
Qed.

Lemma warnings_absent_or_nonempty_witness :
  _check_warnings [] clean_tree = None
  /\ exists ws : list string,
       _check_warnings [hard_reset_command] clean_tree = Some ws /\ ws <> [].
Proof.
  split.
  - apply (proj1 (warnings_absent_or_nonempty [] clean_tree)). reflexivity.
  - apply (proj1 (proj2 (warnings_absent_or_nonempty [hard_reset_command] clean_tree))).
    reflexivity.
Defined.

(** ** Undo and stash *)

Lemma commit_commands_safe (self : t) (context : GitRepositoryState)
    (target : string) :
  Forall (fun c => risk_level c = SAFE)
    (produced (_generate_commit_commands self context target)).
Proof.
  unfold _generate_commit_commands, bind. cbv zeta.
  repeat case_match; simpl; repeat constructor.
Qed.

Lemma no_alternative_for_safe (commands acc : list GitCommand) :
  Forall (fun c => risk_level c = SAFE) commands ->
  collect_alternatives acc commands = acc.
Proof.
  intros H. revert acc. induction H as [|cmd commands Hc _ IH]; simpl; intros acc.
  - reflexivity.
  - rewrite Hc. simpl. apply IH.
Qed.

(** C7, what the code does at "undo my last commit": the undo rule on its
    own would answer with the hard reset and the auditor with the soft reset
    as its one alternative, but the classifier never hands this query to the
    undo rule.  The word "commit" matches the second pattern of the commit
    category, which is declared before undo; the commands are those of the
    commit rule with the placeholder target, all safe, no alternative is
    offered, and on a clean tree no command is suggested at all. *)
Theorem undo_last_commit_is_classified_commit :
  let query := "undo my last commit" in
  (forall context : GitRepositoryState,
     _generate_undo_commands context query = [hard_reset_command]
     /\ _generate_alternatives [hard_reset_command] context =
          Some [soft_reset_alternative])
  /\ matching_categories query = ["commit"; "undo"]
  /\ action (_analyze_intent query) = "commit"
  /\ (forall (self : t) (context : GitRepositoryState) (ai_response : string),
        _generate_commands self (_analyze_intent query) query context ai_response
        = _generate_commit_commands self context "changes")
  /\ (forall (self : t) (context : GitRepositoryState) (r : AssistantResponse),
        process_user_query self query (Some context) = Ok r ->
        Forall (fun c => risk_level c = SAFE) (suggested_commands r)
        /\ alternatives r = None)
  /\ rmap suggested_commands
       (process_user_query (service gpt_writing) query (Some clean_tree)) = Ok [].
Proof.
  cbv zeta.
  assert (Hcmds : forall self context ai_response,
    _generate_commands self (_analyze_intent "undo my last commit")
      "undo my last commit" context ai_response
    = _generate_commit_commands self context "changes").
  { intros self context ai_response.
    replace (_analyze_intent "undo my last commit")
      with (mkIntent "commit" "changes" matched_confidence "undo my last commit")
      by (vm_compute; reflexivity).
    unfold _generate_commands. cbv zeta. simpl.
    destruct (_generate_commit_commands self context "changes"); reflexivity. }
  split; [|split; [|split; [|split; [|split]]]].
  - intros context. split; reflexivity.
  - vm_compute. reflexivity.
  - vm_compute. reflexivity.
  - exact Hcmds.
  - intros self context r. unfold process_user_query. simpl bind at 1.
    destruct (GPTModelService.generate_git_response _ _ _) as [ai|e];
      [|discriminate].
    simpl bind at 1. rewrite Hcmds.
    pose proof (commit_commands_safe self context "changes") as Hsafe.
    destruct (_generate_commit_commands self context "changes") as [cs|e];
      [|discriminate].
    simpl. intros [= <-]. simpl. split; [exact Hsafe|].
    unfold _generate_alternatives. now rewrite no_alternative_for_safe.
  - vm_compute. reflexivity.
Qed.



(** * Further properties of the services *)

Import Analysis Facts.

(** ** Strings *)

Lemma all_chars_app (P : ascii -> bool) (s t : string) :
  all_chars P (s ++ t) = all_chars P s && all_chars P t.
Proof.
  induction s as [|c s IH]; simpl; [reflexivity|].
  rewrite IH. apply andb_assoc.
Qed.

Lemma all_chars_weaken (P Q : ascii -> bool) (s : string) :
  (forall c, P c = true -> Q c = true) ->
  all_chars P s = true -> all_chars Q s = true.
Proof.
  intros HPQ. induction s as [|c s IH]; simpl; [reflexivity|].
  intros H. apply andb_true_iff in H as [Hc Hs].
  rewrite (HPQ c Hc). now apply IH.
Qed.

Lemma all_chars_both (P Q : ascii -> bool) (s : string) :
  all_chars P s = true -> all_chars Q s = true ->
  all_chars (fun c => P c && Q c) s = true.
Proof.
  induction s as [|c s IH]; simpl; [reflexivity|].
  intros HP HQ. apply andb_true_iff in HP as [-> HP].
  apply andb_true_iff in HQ as [-> HQ]. now apply IH.
Qed.

Lemma length_app_string (s t : string) :
  String.length (s ++ t) = (String.length s + String.length t)%nat.
Proof. induction s as [|c s IH]; simpl; [reflexivity|now rewrite IH]. Qed.

Lemma take_app_exact (s t : string) : Text.take (String.length s) (s ++ t) = s.
Proof. induction s as [|c s IH]; simpl; [now destruct t|now rewrite IH]. Qed.

Lemma consumed_prefix (s t : string) : consumed (s ++ t) t = s.
Proof.
  unfold consumed. rewrite length_app_string.
  replace (String.length s + String.length t - String.length t)%nat
    with (String.length s) by lia.
  apply take_app_exact.
Qed.

Lemma lower_char_idem (c : ascii) :
  Text.lower_char (Text.lower_char c) = Text.lower_char c.
Proof. destruct c as [[] [] [] [] [] [] [] []]; reflexivity. Qed.

Lemma lower_char_no_capital (c : ascii) : capital (Text.lower_char c) = false.
Proof. destruct c as [[] [] [] [] [] [] [] []]; reflexivity. Qed.

Lemma lower_idem (s : string) : Text.lower (Text.lower s) = Text.lower s.
Proof.
  induction s as [|c s IH]; simpl; [reflexivity|].
  now rewrite lower_char_idem, IH.
Qed.

Lemma lower_no_capital (s : string) :
  all_chars (fun c => negb (capital c)) (Text.lower s) = true.
Proof.
  induction s as [|c s IH]; simpl; [reflexivity|].
  now rewrite lower_char_no_capital, IH.
Qed.

(** ** Where the matcher calls its continuation *)

Lemma star_reaches {A} (p : ascii -> bool) (s : string) :
  forall (b : option ascii) (g : list (nat * string))
         (k : cursor -> option A) (x : A),
    star p b s g k = Some x ->
    exists (pre s' : string) (b' : option ascii),
      s = pre ++ s' /\ all_chars p pre = true /\ k (Cursor b' s' g) = Some x.
Proof.
  induction s as [|c s IH]; simpl; intros b g k x H.
  - exists EmptyString, EmptyString, b. auto.
  - destruct (p c) eqn:Hp.
    + destruct (star p (Some c) s g k) as [y|] eqn:Hstar; simpl in H.
      * destruct (IH _ _ _ _ Hstar) as (pre & s' & b' & -> & Hpre & Hk).
        exists (String c pre), s', b'. simpl. rewrite Hp, Hpre.
        split; [reflexivity|]. split; [reflexivity|]. congruence.
      * exists EmptyString, (String c s), b. auto.
    + exists EmptyString, (String c s), b. auto.
Qed.

Lemma step_reaches (P p : ascii -> bool) (cu cu' : cursor) :
  all_chars P (rest cu) = true ->
  step p cu = Some cu' ->
  all_chars P (rest cu') = true /\ groups cu' = groups cu.
Proof.
  unfold step. destruct (rest cu) as [|a s]; [discriminate|].
  simpl. intros HP H. destruct (p a); [|discriminate].
  injection H as <-. simpl. apply andb_true_iff in HP as [_ HP]. auto.
Qed.

Lemma exec_reaches {A} (P : ascii -> bool) (r : regex) :
  forall (cu : cursor) (k : cursor -> option A) (x : A),
    all_chars P (rest cu) = true ->
    exec r cu k = Some x ->
    exists cu', all_chars P (rest cu') = true /\ k cu' = Some x.
Proof.
  induction r as [|c|p|p| |r1 IH1 r2 IH2|r1 IH1 r2 IH2|n r IH];
    simpl; intros cu k x HP H.
  - eauto.
  - destruct (step (Ascii.eqb c) cu) as [cu'|] eqn:Hs; [|discriminate].
    destruct (step_reaches P _ cu cu' HP Hs). eauto.
  - destruct (step p cu) as [cu'|] eqn:Hs; [|discriminate].
    destruct (step_reaches P _ cu cu' HP Hs). eauto.
  - destruct (star_reaches p _ _ _ _ _ H) as (pre & s' & b' & Hrest & _ & Hk).
    exists (Cursor b' s' (groups cu)). split; [|exact Hk].
    rewrite Hrest, all_chars_app in HP. simpl.
    now apply andb_true_iff in HP as [_ HP].
  - destruct (at_boundary cu); [eauto|discriminate].
  - destruct (IH1 _ _ _ HP H) as (cu1 & HP1 & H1). eauto.
  - destruct (exec r1 cu k) as [y|] eqn:H1; simpl in H; [|eauto].
    injection H as ->. eauto.
  - destruct (IH _ _ _ HP H) as (cu1 & HP1 & H1).
    eexists. split; [|exact H1]. exact HP1.
Qed.

(** a last group [(x+)] closes on a non-empty run of [p] *)
Lemma exec_group_plus {A} (n : nat) (p : ascii -> bool) (cu : cursor)
    (k : cursor -> option A) (x : A) :
  exec (Group n (Plus p)) cu k = Some x ->
  exists (c : ascii) (pre s' : string) (b' : option ascii),
    rest cu = String c (pre ++ s')
    /\ p c = true /\ all_chars p pre = true
    /\ k (Cursor b' s' ((n, String c pre) :: groups cu)) = Some x.
Proof.
  simpl. unfold step. destruct (rest cu) as [|c s] eqn:Hrest; [discriminate|].
  destruct (p c) eqn:Hp; [|discriminate]. simpl. intros H.
  destruct (star_reaches p _ _ _ _ _ H) as (pre & s' & b' & -> & Hpre & Hk).
  simpl in Hk. exists c, pre, s', b'.
  change (String c (pre ++ s')) with (String c pre ++ s') in Hk.
  rewrite consumed_prefix in Hk. auto.
Qed.

Lemma scan_reaches (P : ascii -> bool) (r : regex) (s : string) :
  forall (b : option ascii) (m : match_obj),
    all_chars P s = true ->
    scan r b s = Some m ->
    exists (b' : option ascii) (s' : string),
      all_chars P s' = true /\ try_at r b' s' = Some m.
Proof.
  induction s as [|c s IH]; simpl; intros b m HP H.
  - destruct (try_at r b EmptyString) eqn:Ht; [|discriminate].
    injection H as <-. exists b, EmptyString. auto.
  - destruct (try_at r b (String c s)) eqn:Ht.
    + injection H as <-. exists b, (String c s). auto.
    + apply andb_true_iff in HP as [_ HP]. eauto.
Qed.

(** a pattern that ends in its one group: [r1 r2 (x+)] *)
Lemma closing_group_captures (P p : ascii -> bool) (r1 r2 : regex)
    (s : string) (m : match_obj) :
  all_chars P s = true ->
  search (seq [r1; r2; Group 1 (Plus p)]) s = Some m ->
  exists t, group 1 m = Some t /\ word_of (fun c => p c && P c) t.
Proof.
  intros HP H. unfold search in H.
  destruct (scan_reaches P _ _ _ _ HP H) as (b & s' & HP' & Ht).
  unfold try_at in Ht.
  change (exec r1 (Cursor b s' [])
            (fun cu1 => exec r2 cu1
               (fun cu2 => exec (Group 1 (Plus p)) cu2
                  (fun cu => Some (groups cu)))) = Some m) in Ht.
  destruct (exec_reaches P r1 (Cursor b s' []) _ _ HP' Ht) as (cu1 & HP1 & H1).
  destruct (exec_reaches P r2 cu1 _ _ HP1 H1) as (cu2 & HP2 & H2).
  destruct (exec_group_plus _ _ _ _ _ H2) as (c & pre & s2 & b2 & Hrest & Hc & Hpre & Hk).
  simpl in Hk. injection Hk as <-.
  exists (String c pre). split; [reflexivity|]. split; [discriminate|].
  rewrite Hrest in HP2.
  change (String c (pre ++ s2)) with (String c pre ++ s2) in HP2.
  rewrite all_chars_app in HP2. apply andb_true_iff in HP2 as [HP2 _].
  apply all_chars_both; [|exact HP2]. simpl. now rewrite Hc, Hpre.
Qed.

(** the message pattern: [r1 r2 q (x+) q] *)
Lemma quoted_group_captures (p q : ascii -> bool) (r1 r2 : regex)
    (s : string) (m : match_obj) :
  search (seq [r1; r2; One q; Group 1 (Plus p); One q]) s = Some m ->
  exists t, group 1 m = Some t /\ word_of p t.
Proof.
  intros H. unfold search in H.
  assert (HT : forall s, all_chars (fun _ => true) s = true)
    by (intros s0; induction s0; simpl; auto).
  destruct (scan_reaches (fun _ => true) _ _ _ _ (HT s) H) as (b & s' & _ & Ht).
  unfold try_at in Ht.
  change (exec r1 (Cursor b s' [])
            (fun cu1 => exec r2 cu1
               (fun cu2 => exec (One q) cu2
                  (fun cu3 => exec (Group 1 (Plus p)) cu3
                     (fun cu4 => exec (One q) cu4
                        (fun cu => Some (groups cu)))))) = Some m) in Ht.
  destruct (exec_reaches (fun _ => true) r1 (Cursor b s' []) _ _ (HT _) Ht)
    as (cu1 & _ & H1).
  destruct (exec_reaches (fun _ => true) r2 cu1 _ _ (HT _) H1) as (cu2 & _ & H2).
  destruct (exec_reaches (fun _ => true) (One q) cu2 _ _ (HT _) H2)
    as (cu3 & _ & H3).
  destruct (exec_group_plus _ _ _ _ _ H3)
    as (c & pre & s2 & b2 & Hrest & Hc & Hpre & Hk).
  simpl in Hk.
  destruct (step q _) as [cu4|] eqn:Hstep; [|discriminate].
  injection Hk as <-.
  destruct (step_reaches (fun _ => true) q _ cu4 (HT _) Hstep) as [_ ->]. simpl.
  exists (String c pre). split; [reflexivity|]. split; [discriminate|].
  simpl. now rewrite Hc, Hpre.
Qed.

(** ** The classifier, further *)

Lemma first_matching_category (q : string) :
  _analyze_intent q =
    match List.filter (category_matches (Text.lower q)) command_patterns with
    | [] => help_intent q
    | (c, _) :: _ => mkIntent c (_extract_target q c) matched_confidence q
    end.
Proof.
  unfold _analyze_intent. rewrite try_commands_spec.
  destruct (List.filter _ command_patterns) as [|[c ps] l]; reflexivity.
Qed.

(** X1: the action the classifier returns is always one of the nine the
    synthesizer knows, and the fallback confidence marks exactly the [help]
    answers. *)
Theorem classifier_actions_are_known (query : string) :
  In (action (_analyze_intent query)) actions
  /\ (action (_analyze_intent query) = "help" <->
      confidence (_analyze_intent query) = default_confidence).
Proof.
  rewrite first_matching_category.
  destruct (List.filter _ command_patterns) as [|[c ps] l] eqn:Hf.
  - split; [simpl; tauto|]. simpl. tauto.
  - assert (Hin : In (c, ps) command_patterns).
    { eapply proj1, filter_In. rewrite Hf. now left. }
    assert (Hc : In c (map fst command_patterns)) by (apply (in_map fst _ _ Hin)).
    simpl in Hc. simpl action. simpl confidence. split.
    + unfold actions. simpl. tauto.
    + split; [|discriminate].
      intros ->. repeat (destruct Hc as [Hc|Hc]; [discriminate|]). contradiction.
Qed.

Lemma extract_target_lower (query act : string) :
  act <> "commit" ->
  _extract_target (Text.lower query) act = _extract_target query act.
Proof.
  intros Hact. unfold _extract_target. rewrite lower_idem.
  destruct (act =? "branch")%string; [reflexivity|].
  destruct (String.eqb_spec act "commit"); [contradiction|reflexivity].
Qed.

(** X2: classification ignores the case of letters: the query and its
    lower-cased form get the same action, and the same target too unless the
    action is [commit], whose message is read off the query as typed. *)
Theorem classification_ignores_case (query : string) :
  action (_analyze_intent (Text.lower query)) = action (_analyze_intent query)
  /\ (action (_analyze_intent query) <> "commit" ->
      target (_analyze_intent (Text.lower query)) = target (_analyze_intent query)).
Proof.
  rewrite !first_matching_category, lower_idem.
  destruct (List.filter _ command_patterns) as [|[c ps] l]; simpl.
  - split; reflexivity.
  - split; [reflexivity|]. intros Hc. now apply extract_target_lower.
Qed.

Lemma classification_ignores_case_witness :
  action (_analyze_intent "SWITCH to Branch Dev-1") <> "commit"
  /\ target (_analyze_intent (Text.lower "SWITCH to Branch Dev-1")) =
     target (_analyze_intent "SWITCH to Branch Dev-1").
Proof.
  split.
  - vm_compute. discriminate.
  - apply (proj2 (classification_ignores_case "SWITCH to Branch Dev-1")).
    vm_compute. discriminate.
Defined.

(** X3: the branch name and the merge source the classifier extracts are
    either the placeholder or a non-empty word over [a-z0-9_/-]: no space,
    no quote, no shell character, and no capital letter, since the name is
    read off the lower-cased query. *)
Theorem branch_and_merge_targets_are_plain_names (query : string) :
  (_extract_target query "branch" = "new branch"
   \/ word_of plain_name_char (_extract_target query "branch"))
  /\ (_extract_target query "merge" = "branch"
      \/ word_of plain_name_char (_extract_target query "merge")).
Proof.
  unfold _extract_target. simpl String.eqb. cbv iota.
  split.
  - destruct (search branch_pattern (Text.lower query)) as [m|] eqn:Hs;
      [right|now left].
    destruct (closing_group_captures _ name_char _ _ _ m (lower_no_capital query) Hs)
      as (t & Hg & Hw).
    unfold group1. rewrite Hg. exact Hw.
  - destruct (search merge_pattern (Text.lower query)) as [m|] eqn:Hs;
      [right|now left].
    destruct (closing_group_captures _ name_char _ _ _ m (lower_no_capital query) Hs)
      as (t & Hg & Hw).
    unfold group1. rewrite Hg. exact Hw.
Qed.

(** X4: the commit message the classifier extracts is either the
    placeholder or a non-empty text without any quote character, double or
    single. *)
Theorem commit_target_has_no_quote (query : string) :
  _extract_target query "commit" = "changes"
  \/ word_of (fun c => negb (quote c)) (_extract_target query "commit").
Proof.
  unfold _extract_target. simpl String.eqb. cbv iota.
  destruct (search message_pattern query) as [m|] eqn:Hs; [right|now left].
  destruct (quoted_group_captures _ quote _ _ _ m Hs) as (t & Hg & Hw).
  unfold group1. rewrite Hg. exact Hw.
Qed.

(** ** The synthesizer, rule by rule *)

(** whatever holds of the output of each rule, under the action that
    selects it, holds of the output of the synthesizer *)
Lemma commands_by_rule (Q : list GitCommand -> Prop) (self : t) (intent : Intent)
    (query : string) (context : GitRepositoryState) (ai_response : string) :
  (action intent = "commit" ->
   forall cs, _generate_commit_commands self context (target intent) = Ok cs -> Q cs) ->
  (action intent = "push" -> Q (_generate_push_commands context)) ->
  (action intent = "pull" -> Q (_generate_pull_commands context)) ->
  (action intent = "branch" ->
   Q (_generate_branch_commands context (target intent) query)) ->
  (action intent = "merge" -> Q (_generate_merge_commands context (target intent))) ->
  (action intent = "status" -> Q (_generate_status_commands context)) ->
  (action intent = "undo" -> Q (_generate_undo_commands context query)) ->
  (action intent = "stash" -> Q (_generate_stash_commands context)) ->
  (~ In (action intent)
       ["commit"; "push"; "pull"; "branch"; "merge"; "status"; "undo"; "stash"] ->
   Q [mkGitCommand "git" ["status"] "Show repository status" SAFE false
        (Some "Let's start by checking your repository status")]) ->
  forall cmds,
    _generate_commands self intent query context ai_response = Ok cmds -> Q cmds.
Proof.
  intros Hcommit Hpush Hpull Hbranch Hmerge Hstatus Hundo Hstash Hhelp cmds.
  unfold _generate_commands. cbv zeta.
  destruct (String.eqb_spec (action intent) "commit") as [E|N1].
  { destruct (_generate_commit_commands self context (target intent)) as [cs|e] eqn:Hc;
      simpl; [|discriminate].
    intros [= <-]. now apply Hcommit. }
  destruct (String.eqb_spec (action intent) "push") as [E|N2];
    [intros [= <-]; now apply Hpush|].
  destruct (String.eqb_spec (action intent) "pull") as [E|N3];
    [intros [= <-]; now apply Hpull|].
  destruct (String.eqb_spec (action intent) "branch") as [E|N4];
    [intros [= <-]; now apply Hbranch|].
  destruct (String.eqb_spec (action intent) "merge") as [E|N5];
    [intros [= <-]; now apply Hmerge|].
  destruct (String.eqb_spec (action intent) "status") as [E|N6];
    [intros [= <-]; now apply Hstatus|].
  destruct (String.eqb_spec (action intent) "undo") as [E|N7];
    [intros [= <-]; now apply Hundo|].
  destruct (String.eqb_spec (action intent) "stash") as [E|N8];
    [intros [= <-]; now apply Hstash|].
  intros [= <-]. apply Hhelp. simpl. intuition congruence.
Qed.

(** the shapes the commit rule can return *)
Lemma commit_rule_shapes (self : t) (context : GitRepositoryState)
    (target : string) (cs : list GitCommand) :
  _generate_commit_commands self context target = Ok cs ->
  exists pre : list GitCommand,
    (pre = [] \/ pre = [stage_all_command])
    /\ (cs = pre
        \/ cs = (pre ++ [explicit_commit_command target])%list
        \/ exists msg, cs = (pre ++ [generated_commit_command msg])%list).
Proof.
  unfold _generate_commit_commands, bind. cbv zeta.
  destruct (negb (Truth.of_list (staged_files context)) && _).
  - exists [stage_all_command]. split; [now right|].
    repeat case_match; try discriminate; injection H as <-; eauto.
  - exists []. split; [now left|].
    repeat case_match; try discriminate; injection H as <-; eauto.
Qed.

Ltac by_rule :=
  match goal with
  | H : _generate_commands _ _ _ _ _ = Ok ?cmds |- _ => revert H; revert cmds
  end;
  apply commands_by_rule; intros;
  unfold _generate_push_commands, _generate_pull_commands,
    _generate_branch_commands, _generate_merge_commands,
    _generate_status_commands, _generate_undo_commands,
    _generate_stash_commands; cbv zeta.

(** X5: every command the synthesizer suggests, and every alternative the
    auditor offers, is an invocation of the program [git] with at least one
    argument. *)
Theorem commands_are_git_invocations :
  (forall (self : t) (intent : Intent) (query : string)
          (context : GitRepositoryState) (ai_response : string),
     Forall git_invocation
       (produced (_generate_commands self intent query context ai_response)))
  /\ (forall (commands : list GitCommand) (context : GitRepositoryState),
        Forall git_invocation
          (default [] (_generate_alternatives commands context))).
Proof.
  split.
  - intros self intent query context ai_response.
    destruct (_generate_commands self intent query context ai_response)
      as [cmds|e] eqn:Hcmds; [|constructor].
    simpl.
    by_rule; try (repeat case_match; simpl; repeat constructor; discriminate).
    destruct (commit_rule_shapes _ _ _ _ H0) as (pre & [->| ->] & [->|[->|[msg ->]]]);
      simpl; repeat constructor; discriminate.
  - intros commands context. unfold _generate_alternatives.
    assert (H : forall acc, Forall git_invocation acc ->
                  Forall git_invocation (collect_alternatives acc commands)).
    { induction commands as [|cmd commands IH]; simpl; intros acc Hacc; [exact Hacc|].
      apply IH. repeat case_match; try exact Hacc.
      apply Forall_app. split; [exact Hacc|].
      repeat constructor; discriminate. }
    specialize (H [] (List.Forall_nil _)).
    destruct (Truth.of_list (collect_alternatives [] commands)); [exact H|constructor].
Qed.

(** X6: the synthesizer suggests at most two commands, and it suggests none
    only for a commit request without a message on a snapshot without any
    staged, unstaged or untracked file. *)
Theorem synthesis_count_bounds (self : t) (intent : Intent) (query : string)
    (context : GitRepositoryState) (ai_response : string)
    (cmds : list GitCommand) :
  _generate_commands self intent query context ai_response = Ok cmds ->
  (length cmds <= 2)%nat
  /\ (cmds = [] ->
      action intent = "commit" /\ target intent = "changes" /\ no_files context).
Proof.
  intros Hcmds.
  by_rule;
    try (repeat case_match; simpl; (split; [lia|intros E; discriminate E])).
  rename H0 into Hc. unfold _generate_commit_commands, bind in Hc. cbv zeta in Hc.
  unfold no_files.
  destruct (staged_files context) as [|f fs];
    destruct (unstaged_files context) as [|u us];
    destruct (untracked_files context) as [|v vs];
    destruct (String.eqb_spec (target intent) "changes") as [Et|Nt];
    simpl in Hc;
    repeat (match type of Hc with
            | context [match ?x with _ => _ end] => destruct x
            end; simpl in Hc);
    try discriminate; injection Hc as <-; simpl;
    (split; [lia|]); intros Hnil; try discriminate; auto.
Qed.

Lemma synthesis_count_bounds_witness :
  (length ([] : list GitCommand) <= 2)%nat
  /\ (([] : list GitCommand) = [] ->
      action (_analyze_intent "commit") = "commit"
      /\ target (_analyze_intent "commit") = "changes"
      /\ no_files clean_tree).
Proof.
  apply (synthesis_count_bounds (service gpt_silent) (_analyze_intent "commit")
           "commit" clean_tree EmptyString []).
  reflexivity.
Defined.

(** X7: a suggested command asks for confirmation only when its risk is
    moderate or destructive; the one exception is the safe "git stash" that
    the pull rule puts before the pull on a tree that is not clean. *)
Theorem confirmation_goes_with_risk (self : t) (intent : Intent) (query : string)
    (context : GitRepositoryState) (ai_response : string) :
  Forall confirmation_is_justified
    (produced (_generate_commands self intent query context ai_response))
  /\ (action intent = "pull" -> is_clean context = false ->
      _generate_commands self intent query context ai_response
      = Ok [stash_before_pull;
            mkGitCommand "git" ["pull"] "Pull latest changes from remote"
              MODERATE false
              (Some "Fetch and merge changes from remote repository")]).
Proof.
  split.
  - destruct (_generate_commands self intent query context ai_response)
      as [cmds|e] eqn:Hcmds; [|constructor].
    simpl.
    by_rule;
      try (repeat case_match; simpl; repeat constructor;
           unfold confirmation_is_justified; simpl; intros; congruence).
    destruct (commit_rule_shapes _ _ _ _ H0) as (pre & [->| ->] & [->|[->|[msg ->]]]);
      simpl; repeat constructor; unfold confirmation_is_justified; simpl;
      intros; congruence.
  - intros Ha Hclean. unfold _generate_commands. cbv zeta. rewrite Ha. simpl.
    unfold _generate_pull_commands. rewrite Hclean. reflexivity.
Qed.

Lemma confirmation_goes_with_risk_witness :
  _generate_commands (service gpt_silent) (_analyze_intent "pull") "pull"
    modified_tree EmptyString
  = Ok [stash_before_pull;
        mkGitCommand "git" ["pull"] "Pull latest changes from remote"
          MODERATE false
          (Some "Fetch and merge changes from remote repository")].
Proof.
  apply (proj2 (confirmation_goes_with_risk (service gpt_silent)
                  (_analyze_intent "pull") "pull" modified_tree EmptyString));
    reflexivity.
Defined.

(** ** Where a destructive command can come from *)

Lemma undo_excludes_whole_word_commit (query : string) :
  action (_analyze_intent query) = "undo" ->
  found (search whole_word_commit (Text.lower query)) = false.
Proof.
  rewrite first_matching_category. unfold command_patterns.
  cbn [List.filter].
  destruct (category_matches (Text.lower query) _) eqn:Hc; [discriminate|].
  intros _. unfold category_matches in Hc. cbn [snd existsb] in Hc.
  apply orb_false_elim in Hc as [_ Hc].
  apply orb_false_elim in Hc as [Hc _]. exact Hc.
Qed.

Lemma destructive_is_the_hard_reset (self : t) (intent : Intent) (query : string)
    (context : GitRepositoryState) (ai_response : string)
    (cmds : list GitCommand) :
  _generate_commands self intent query context ai_response = Ok cmds ->
  has_destructive cmds = false
  \/ (cmds = [hard_reset_command]
      /\ action intent = "undo"
      /\ Text.contains "commit" (Text.lower query) = true
      /\ Text.contains "keep" (Text.lower query) = false
      /\ Text.contains "save" (Text.lower query) = false).
Proof.
  intros Hcmds.
  by_rule; try (repeat case_match; simpl; now left).
  - destruct (commit_rule_shapes _ _ _ _ H0) as (pre & [->| ->] & [->|[->|[msg ->]]]);
      now left.
  - destruct (Text.contains "commit" _) eqn:Hcommit; [|now left].
    destruct (Text.contains "keep" _) eqn:Hkeep; [now left|].
    destruct (Text.contains "save" _) eqn:Hsave; [now left|].
    right. simpl. auto.
Qed.

(** X8: the only destructive command ever suggested for a query is the hard
    reset of the last commit, and only when the query is classified [undo],
    holds the letters "commit" but neither "keep" nor "save", and does not
    hold "commit" as a word of its own (such a query is classified [commit]):
    "undo my last commits" gets it, "undo my last commit" does not. *)
Theorem destructive_only_for_undo (self : t) (query : string)
    (context : GitRepositoryState) (ai_response : string) (c : GitCommand) :
  In c (produced (_generate_commands self (_analyze_intent query) query
                    context ai_response)) ->
  risk_level c = DESTRUCTIVE ->
  c = hard_reset_command
  /\ action (_analyze_intent query) = "undo"
  /\ Text.contains "commit" (Text.lower query) = true
  /\ Text.contains "keep" (Text.lower query) = false
  /\ Text.contains "save" (Text.lower query) = false
  /\ found (search whole_word_commit (Text.lower query)) = false.
Proof.
  intros Hin Hrisk.
  destruct (_generate_commands self (_analyze_intent query) query context
              ai_response) as [cmds|e] eqn:Hcmds; [|contradiction].
  simpl in Hin.
  destruct (destructive_is_the_hard_reset _ _ _ _ _ _ Hcmds)
    as [Hnone|(-> & Hundo & Hc & Hk & Hs)].
  - exfalso. unfold has_destructive in Hnone.
    assert (Hex : existsb (fun cmd => RiskLevel_eqb (risk_level cmd) DESTRUCTIVE)
                    cmds = true).
    { apply existsb_exists. exists c. split; [exact Hin|]. now rewrite Hrisk. }
    congruence.
  - destruct Hin as [<-|[]].
    repeat (split; [assumption || reflexivity|]).
    now apply undo_excludes_whole_word_commit.
Qed.

Lemma destructive_only_for_undo_witness :
  hard_reset_command = hard_reset_command
  /\ action (_analyze_intent "undo my last commits") = "undo"
  /\ Text.contains "commit" (Text.lower "undo my last commits") = true
  /\ Text.contains "keep" (Text.lower "undo my last commits") = false
  /\ Text.contains "save" (Text.lower "undo my last commits") = false
  /\ found (search whole_word_commit (Text.lower "undo my last commits")) = false.
Proof.
  apply (destructive_only_for_undo (service gpt_silent) "undo my last commits"
           clean_tree EmptyString hard_reset_command).
  - vm_compute. left. reflexivity.
  - reflexivity.
Defined.

(** ** The commit rule, further *)

Lemma commit_intent_target (query : string) :
  action (_analyze_intent query) = "commit" ->
  target (_analyze_intent query) = _extract_target query "commit".
Proof.
  rewrite first_matching_category.
  destruct (List.filter _ command_patterns) as [|[c ps] l]; simpl;
    [discriminate|]. now intros ->.
Qed.

(** X9: a commit request that carries a message is answered without the
    backend and without the diff, so it cannot fail: the last command
    commits with the message as typed, between double quotes, and the
    message itself holds no quote character; "git add ." comes first when
    nothing is staged and something is unstaged or untracked. *)
Theorem commit_with_message_needs_no_backend (self : t) (query : string)
    (context : GitRepositoryState) (ai_response : string) :
  action (_analyze_intent query) = "commit" ->
  target (_analyze_intent query) <> "changes" ->
  exists pre : list GitCommand,
    (pre = [] \/ pre = [stage_all_command])
    /\ _generate_commands self (_analyze_intent query) query context ai_response
       = Ok (pre ++ [explicit_commit_command (target (_analyze_intent query))])%list
    /\ word_of (fun c => negb (quote c)) (target (_analyze_intent query)).
Proof.
  intros Ha Ht.
  assert (Hword : word_of (fun c => negb (quote c)) (target (_analyze_intent query))).
  { rewrite (commit_intent_target query Ha) in *.
    unfold _extract_target in *. simpl String.eqb in *. cbv iota in *.
    destruct (search message_pattern query) as [m|] eqn:Hs; [|contradiction].
    destruct (quoted_group_captures _ quote _ _ _ m Hs) as (t & Hg & Hw).
    unfold group1. now rewrite Hg. }
  unfold _generate_commands. cbv zeta. rewrite Ha. simpl String.eqb. cbv iota.
  unfold _generate_commit_commands. cbv zeta.
  destruct (String.eqb_spec (target (_analyze_intent query)) "changes");
    [contradiction|].
  simpl negb. cbv iota.
  destruct (negb (Truth.of_list (staged_files context)) && _).
  - exists [stage_all_command]. split; [now right|]. split; [reflexivity|exact Hword].
  - exists []. split; [now left|]. split; [reflexivity|exact Hword].
Qed.

Lemma commit_with_message_needs_no_backend_witness :
  exists pre : list GitCommand,
    (pre = [] \/ pre = [stage_all_command])
    /\ _generate_commands (mk (GPTModelService.mk false None) analyzer)
         (_analyze_intent "commit with message 'fix typo'")
         "commit with message 'fix typo'" modified_tree EmptyString
       = Ok (pre ++ [explicit_commit_command
                       (target (_analyze_intent "commit with message 'fix typo'"))])%list
    /\ word_of (fun c => negb (quote c))
         (target (_analyze_intent "commit with message 'fix typo'")).
Proof.
  apply (commit_with_message_needs_no_backend
           (mk (GPTModelService.mk false None) analyzer)
           "commit with message 'fix typo'" modified_tree EmptyString).
  - reflexivity.
  - vm_compute. discriminate.
Defined.

(** ** When a query fails *)

Lemma git_response_not_ready (g : GPTModelService.t) (query : string)
    (c : GPTModelService.git_context) :
  GPTModelService.is_model_ready g = false ->
  GPTModelService.generate_git_response g query c = Raise not_initialized.
Proof.
  intros Hr. unfold GPTModelService.generate_git_response.
  now rewrite generate_response_not_ready.
Qed.

Lemma commands_without_diff (self : t) (intent : Intent) (query : string)
    (context : GitRepositoryState) (ai_response : string) :
  consults_diff intent context = false ->
  returns (_generate_commands self intent query context ai_response).
Proof.
  unfold consults_diff, returns, _generate_commands. cbv zeta. intros H.
  destruct (String.eqb_spec (action intent) "commit") as [E|N].
  - unfold _generate_commit_commands. cbv zeta.
    destruct (target intent =? "changes")%string; simpl in *.
    + rewrite H. destruct (negb _ && _); simpl; eauto.
    + destruct (negb _ && _); simpl; eauto.
  - repeat (destruct (action intent =? _)%string; [eauto|]). eauto.
Qed.

Lemma commands_with_diff (self : t) (intent : Intent) (query : string)
    (context : GitRepositoryState) (ai_response : string) :
  consults_diff intent context = true ->
  _generate_commands self intent query context ai_response =
    let! diff := GitStateAnalyzer.analyze_diff (git_analyzer self) None in
    let! msg := GPTModelService.generate_commit_message (gpt_service self)
                  (summary diff) (map path (files diff)) in
    Ok ((if negb (Truth.of_list (staged_files context))
            && (Truth.of_list (unstaged_files context)
                || Truth.of_list (untracked_files context))
         then [stage_all_command] else [])
        ++ [generated_commit_command msg])%list.
Proof.
  unfold consults_diff. intros H.
  apply andb_true_iff in H as [H Hfiles]. apply andb_true_iff in H as [Ha Ht].
  unfold _generate_commands. cbv zeta. rewrite Ha.
  unfold _generate_commit_commands. cbv zeta. rewrite Ht, Hfiles. simpl negb.
  cbv iota.
  destruct (GitStateAnalyzer.analyze_diff (git_analyzer self) None) as [diff|e];
    [|reflexivity].
  simpl bind.
  destruct (GPTModelService.generate_commit_message _ _ _) as [msg|e];
    [|reflexivity].
  simpl. destruct (negb _ && _); reflexivity.
Qed.

(** with an initialised model, a query on a given snapshot gets as far as
    the synthesizer *)
Lemma process_when_ready (self : t) (query : string) (context : GitRepositoryState) :
  GPTModelService.is_model_ready (gpt_service self) = true ->
  exists ai : string,
    process_user_query self query (Some context) =
      let! cmds := _generate_commands self (_analyze_intent query) query context ai in
      Ok (mkResponse
            ("I understand you want to " ++ action (_analyze_intent query) ++ " "
             ++ target (_analyze_intent query))
            cmds
            (_generate_explanation (_analyze_intent query) query context ai)
            (_check_warnings cmds context)
            (_generate_alternatives cmds context)
            (confidence (_analyze_intent query))).
Proof.
  intros Hr. unfold process_user_query. simpl bind at 1.
  unfold GPTModelService.generate_git_response.
  edestruct (generate_response_ready (gpt_service self)) as [ai ->]; [exact Hr|].
  exists ai. reflexivity.
Qed.

(** X10: when a query fails.  Without an initialised model every query
    fails with the same [RuntimeError], status requests included.  With an
    initialised model, a query on a given snapshot fails in one case only:
    a commit request without a message on a snapshot with staged or unstaged
    files, when the diff analysis raises; the exception is then the one of
    the diff analysis. *)
Theorem query_failures (self : t) (query : string) (context : GitRepositoryState) :
  (GPTModelService.is_model_ready (gpt_service self) = false ->
   process_user_query self query (Some context) = Raise not_initialized)
  /\ (GPTModelService.is_model_ready (gpt_service self) = true ->
      consults_diff (_analyze_intent query) context = false ->
      returns (process_user_query self query (Some context)))
  /\ (GPTModelService.is_model_ready (gpt_service self) = true ->
      consults_diff (_analyze_intent query) context = true ->
      (forall diff, GitStateAnalyzer.analyze_diff (git_analyzer self) None = Ok diff ->
                    returns (process_user_query self query (Some context)))
      /\ (forall e, GitStateAnalyzer.analyze_diff (git_analyzer self) None = Raise e ->
                    process_user_query self query (Some context) = Raise e)).
Proof.
  split; [|split].
  - intros Hr. unfold process_user_query. simpl bind at 1.
    now rewrite git_response_not_ready.
  - intros Hr Hno. destruct (process_when_ready self query context Hr) as [ai ->].
    destruct (commands_without_diff self (_analyze_intent query) query context ai Hno)
      as [cmds ->].
    simpl. unfold returns. eauto.
  - intros Hr Hyes. destruct (process_when_ready self query context Hr) as [ai ->].
    rewrite (commands_with_diff self _ query context ai Hyes). split.
    + intros diff ->. simpl bind at 2.
      edestruct (generate_commit_message_ready (gpt_service self)) as [msg ->];
        [exact Hr|].
      simpl. unfold returns. eauto.
    + intros e ->. reflexivity.
Qed.

Lemma query_failures_witness :
  process_user_query (mk (GPTModelService.mk false None) analyzer)
    "show me the status" (Some clean_tree) = Raise not_initialized
  /\ returns (process_user_query (service gpt_failing) "show me the status"
                (Some clean_tree))
  /\ process_user_query
       (mk gpt_writing (GitStateAnalyzer.mk (Ok modified_tree)
                          (fun _ => Raise (GitError "bad revision HEAD"))))
       "commit my work" (Some modified_tree)
     = Raise (GitError "bad revision HEAD").
Proof.
  split; [|split].
  - apply (proj1 (query_failures (mk (GPTModelService.mk false None) analyzer)
                    "show me the status" clean_tree)). reflexivity.
  - apply (proj1 (proj2 (query_failures (service gpt_failing)
                           "show me the status" clean_tree))); reflexivity.
  - apply (proj2 (proj2 (query_failures
                           (mk gpt_writing
                              (GitStateAnalyzer.mk (Ok modified_tree)
                                 (fun _ => Raise (GitError "bad revision HEAD"))))
                           "commit my work" modified_tree))); reflexivity.
Defined.

(** ** The auditor, further *)

Lemma collect_alternatives_spec (commands acc : list GitCommand) :
  collect_alternatives acc commands =
    (acc ++ repeat soft_reset_alternative (count_if is_hard_reset commands))%list.
Proof.
  revert acc. unfold count_if.
  induction commands as [|cmd commands IH]; simpl; intros acc.
  - now rewrite app_nil_r.
  - rewrite IH. unfold is_hard_reset at 2, is_destructive.
    destruct (RiskLevel_eqb (risk_level cmd) DESTRUCTIVE); simpl; [|reflexivity].
    destruct (mem "reset" (args cmd) && mem "--hard" (args cmd)); simpl;
      [|reflexivity].
    now rewrite <- app_assoc.
Qed.

Lemma hard_resets_are_destructive (commands : list GitCommand) :
  has_destructive commands = false -> count_if is_hard_reset commands = 0%nat.
Proof.
  unfold has_destructive, count_if.
  induction commands as [|cmd commands IH]; simpl; [reflexivity|].
  intros H. apply orb_false_elim in H as [Hc H].
  unfold is_hard_reset, is_destructive. rewrite Hc. simpl. now apply IH.
Qed.

(** X11: for any list of commands the auditor offers one soft reset per
    destructive command that has both "reset" and "--hard" among its
    arguments, all of them the same moderate command, and offers nothing
    ([None]) when there is no such command. *)
Theorem one_alternative_per_hard_reset (commands : list GitCommand)
    (context : GitRepositoryState) :
  _generate_alternatives commands context =
    match count_if is_hard_reset commands with
    | O => None
    | S n => Some (repeat soft_reset_alternative (S n))
    end.
Proof.
  unfold _generate_alternatives. rewrite collect_alternatives_spec. simpl.
  destruct (count_if is_hard_reset commands); reflexivity.
Qed.

(** X12: when the auditor returns warnings, they are some of the three
    fixed messages, in the order data loss, uncommitted changes, unresolved
    conflicts, each present exactly when its own rule triggers: a
    destructive command; a command with "push" among its arguments on a tree
    that is not clean; a non-empty list of conflicted files. *)
Theorem warnings_follow_their_rules (commands : list GitCommand)
    (context : GitRepositoryState) (ws : list string) :
  _check_warnings commands context = Some ws ->
  sublist_of ws warning_order = true
  /\ (In destructive_warning ws <-> has_destructive commands = true)
  /\ (In uncommitted_warning ws <->
      is_clean context = false /\ has_push commands = true)
  /\ (In conflict_warning ws <-> has_conflicts context = true).
Proof.
  rewrite check_warnings_spec. cbv zeta.
  destruct (has_destructive commands); destruct (is_clean context);
    destruct (has_push commands); destruct (has_conflicts context);
    simpl; intros H; try discriminate; injection H as <-;
    (split; [reflexivity|]); simpl;
    repeat split; intros; try discriminate; auto;
    repeat match goal with
           | H : _ \/ _ |- _ => destruct H
           | H : _ /\ _ |- _ => destruct H
           | H : False |- _ => contradiction
           end; try discriminate.
Qed.

Lemma warnings_follow_their_rules_witness :
  sublist_of [destructive_warning; conflict_warning] warning_order = true
  /\ (In destructive_warning [destructive_warning; conflict_warning] <->
      has_destructive [hard_reset_command] = true)
  /\ (In uncommitted_warning [destructive_warning; conflict_warning] <->
      is_clean conflicted_tree = false /\ has_push [hard_reset_command] = true)
  /\ (In conflict_warning [destructive_warning; conflict_warning] <->
      has_conflicts conflicted_tree = true).
Proof.
  apply (warnings_follow_their_rules [hard_reset_command] conflicted_tree
           [destructive_warning; conflict_warning]).
  reflexivity.
Defined.

(** X13: in a response to a query, the data-loss warning, the hard reset
    and its alternative come together or not at all: either no suggested
    command is destructive, no alternative is offered and the data-loss
    warning is absent, or the one suggested command is the hard reset, the
    one alternative is the soft reset and the data-loss warning is there. *)
Theorem data_loss_comes_with_its_alternative (self : t) (query : string)
    (context : GitRepositoryState) (r : AssistantResponse) :
  process_user_query self query (Some context) = Ok r ->
  (has_destructive (suggested_commands r) = false
   /\ alternatives r = None
   /\ ~ In destructive_warning (default [] (warnings r)))
  \/ (suggested_commands r = [hard_reset_command]
      /\ alternatives r = Some [soft_reset_alternative]
      /\ In destructive_warning (default [] (warnings r))).
Proof.
  unfold process_user_query. simpl bind at 1.
  destruct (GPTModelService.generate_git_response _ _ _) as [ai|e]; [|discriminate].
  simpl bind at 1.
  destruct (_generate_commands self (_analyze_intent query) query context ai)
    as [cmds|e] eqn:Hcmds; [|discriminate].
  simpl. intros [= <-]. simpl.
  destruct (destructive_is_the_hard_reset _ _ _ _ _ _ Hcmds) as [Hnone|(-> & _)].
  - left. split; [exact Hnone|]. split.
    + unfold _generate_alternatives. rewrite collect_alternatives_spec.
      now rewrite (hard_resets_are_destructive cmds Hnone).
    + rewrite check_warnings_spec. rewrite Hnone. cbv zeta.
      destruct (negb (is_clean context) && has_push cmds);
        destruct (has_conflicts context); simpl; intros H;
        repeat (destruct H as [H|H]; [discriminate|]); contradiction.
  - right. split; [reflexivity|]. split; [reflexivity|].
    rewrite check_warnings_spec. cbv zeta.
    destruct (negb (is_clean context) && _); destruct (has_conflicts context);
      simpl; tauto.
Qed.

Lemma data_loss_comes_with_its_alternative_witness :
  exists r : AssistantResponse,
    process_user_query (service gpt_silent) "undo my last commits"
      (Some clean_tree) = Ok r
    /\ suggested_commands r = [hard_reset_command]
    /\ alternatives r = Some [soft_reset_alternative]
    /\ In destructive_warning (default [] (warnings r)).
Proof.
  eexists. split; [reflexivity|].
  destruct (data_loss_comes_with_its_alternative (service gpt_silent)
              "undo my last commits" clean_tree _ eq_refl)
    as [(Hnone & _)|H].
  - discriminate Hnone.
  - exact H.
Defined.

(** ** What the backend service hands over *)

Lemma lstrip_length (s : string) : (String.length (Text.lstrip s) <= String.length s)%nat.
Proof.
  induction s as [|c s IH]; simpl; [lia|].
  destruct (Text.is_space c); simpl; lia.
Qed.

Lemma rstrip_length (s : string) : (String.length (Text.rstrip s) <= String.length s)%nat.
Proof.
  induction s as [|c s IH]; simpl; [lia|].
  destruct (Text.rstrip s); [destruct (Text.is_space c)|]; simpl in *; lia.
Qed.

Lemma strip_length (s : string) : (String.length (Text.strip s) <= String.length s)%nat.
Proof.
  unfold Text.strip. pose proof (rstrip_length (Text.lstrip s)).
  pose proof (lstrip_length s). lia.
Qed.

Lemma lstrip_all (P : ascii -> bool) (s : string) :
  all_chars P s = true -> all_chars P (Text.lstrip s) = true.
Proof.
  induction s as [|c s IH]; simpl; [reflexivity|].
  intros H. destruct (Text.is_space c); [|exact H].
  apply andb_true_iff in H as [_ H]. now apply IH.
Qed.

Lemma rstrip_all (P : ascii -> bool) (s : string) :
  all_chars P s = true -> all_chars P (Text.rstrip s) = true.
Proof.
  induction s as [|c s IH]; simpl; [reflexivity|].
  intros H. apply andb_true_iff in H as [Hc H]. specialize (IH H).
  destruct (Text.rstrip s); [destruct (Text.is_space c)|]; simpl in *;
    rewrite ?Hc; auto.
Qed.

Lemma strip_all (P : ascii -> bool) (s : string) :
  all_chars P s = true -> all_chars P (Text.strip s) = true.
Proof. intros H. unfold Text.strip. now apply rstrip_all, lstrip_all. Qed.

Lemma lstrip_blank (s : string) : blank s = true -> Text.lstrip s = EmptyString.
Proof.
  unfold blank. induction s as [|c s IH]; simpl; [reflexivity|].
  intros H. apply andb_true_iff in H as [-> H]. now apply IH.
Qed.

Lemma strip_blank (s : string) : blank s = true -> Text.strip s = EmptyString.
Proof. intros H. unfold Text.strip. now rewrite lstrip_blank. Qed.

Lemma first_line_is_one_line (s : string) :
  all_chars no_line_feed (Text.first_line s) = true.
Proof.
  induction s as [|c s IH]; simpl; [reflexivity|].
  destruct (Ascii.eqb c Text.newline) eqn:Hc; simpl; [reflexivity|].
  unfold no_line_feed at 1. now rewrite Hc.
Qed.

Lemma take_length (n : nat) (s : string) : (String.length (Text.take n s) <= n)%nat.
Proof.
  revert s. induction n as [|n IH]; intros [|c s]; simpl; try lia.
  specialize (IH s). lia.
Qed.

Lemma take_all (P : ascii -> bool) (n : nat) (s : string) :
  all_chars P s = true -> all_chars P (Text.take n s) = true.
Proof.
  revert s. induction n as [|n IH]; intros [|c s]; simpl; try reflexivity.
  intros H. apply andb_true_iff in H as [-> H]. now apply IH.
Qed.

Lemma truth_of_str_nonempty (s : string) : Truth.of_str s = true -> s <> EmptyString.
Proof. destruct s; [discriminate|]. intros _. discriminate. Qed.

Lemma bind_ok {A B} (a : A) (f : A -> result B) : bind (Ok a) f = f a.
Proof. reflexivity. Qed.

(** X14: an initialised service always hands over a commit message that is
    not empty, has at most 72 characters and holds no line feed, whatever
    the model writes and also when it fails. *)
Theorem commit_message_is_one_short_line (g : GPTModelService.t)
    (diff_summary : string) (file_changes : list string) :
  GPTModelService.is_model_ready g = true ->
  exists msg : string,
    GPTModelService.generate_commit_message g diff_summary file_changes = Ok msg
    /\ msg <> EmptyString
    /\ (String.length msg <= 72)%nat
    /\ all_chars no_line_feed msg = true.
Proof.
  intros Hr. unfold GPTModelService.generate_commit_message.
  edestruct (generate_response_ready g) as [response ->]; [exact Hr|].
  rewrite bind_ok. cbv beta zeta.
  set (line := Text.strip (Text.first_line (Text.strip response))).
  assert (Hline : all_chars no_line_feed line = true)
    by (apply strip_all, first_line_is_one_line).
  eexists. split; [reflexivity|].
  destruct (72 <? String.length line)%nat eqn:Hlong.
  - assert (Hcut : Truth.of_str (Text.take 69 line ++ "...") = true)
      by (destruct (Text.take 69 line); reflexivity).
    rewrite Hcut. split; [now apply truth_of_str_nonempty|]. split.
    + rewrite length_app_string. pose proof (take_length 69 line).
      change (String.length "...") with 3%nat. lia.
    + rewrite all_chars_app, (take_all _ 69 line Hline). reflexivity.
  - apply Nat.ltb_ge in Hlong.
    destruct (Truth.of_str line) eqn:Hne.
    + split; [now apply truth_of_str_nonempty|]. auto.
    + split; [discriminate|]. split; [simpl; lia|reflexivity].
Qed.

Lemma commit_message_is_one_short_line_witness :
  exists msg : string,
    GPTModelService.generate_commit_message gpt_failing
      "1 file changed, 1 insertions(+), 0 deletions(-)" ["a.txt"] = Ok msg
    /\ msg <> EmptyString
    /\ (String.length msg <= 72)%nat
    /\ all_chars no_line_feed msg = true.
Proof.
  apply (commit_message_is_one_short_line gpt_failing
           "1 file changed, 1 insertions(+), 0 deletions(-)" ["a.txt"]).
  reflexivity.
Defined.

(** X15: an initialised service never raises and never answers with the
    empty text: when the model writes nothing but white space the canned
    sentence is returned, and when the model fails the answer is the error
    sentence followed by the text of the exception. *)
Theorem response_is_never_empty (g : GPTModelService.t) (prompt : string)
    (options : GPTModelService.InferenceOptions) :
  GPTModelService.is_model_ready g = true ->
  exists (run : GPTModelService.pipeline) (text : string),
    GPTModelService.model g = Some run
    /\ GPTModelService.generate_response g prompt (Some options) = Ok text
    /\ text <> EmptyString
    /\ (forall written, run prompt options = inl written -> blank written = true ->
        text = "I understand your request. Let me help you with that Git operation.")
    /\ (forall e, run prompt options = inr e ->
        text = "I encountered an error processing your request: " ++ e).
Proof.
  intros Hr. unfold GPTModelService.generate_response. rewrite Hr.
  unfold GPTModelService.is_model_ready in Hr.
  destruct (GPTModelService.model g) as [run|];
    [|rewrite andb_false_r in Hr; discriminate].
  exists run. destruct (run prompt options) as [written|e] eqn:Hrun.
  - eexists. split; [reflexivity|]. split; [reflexivity|].
    destruct (Truth.of_str (Text.strip written)) eqn:Hne.
    + split; [now apply truth_of_str_nonempty|]. split; [|discriminate].
      intros w [= <-] Hb. rewrite (strip_blank written Hb) in Hne. discriminate.
    + split; [discriminate|]. split; [reflexivity|discriminate].
  - eexists. split; [reflexivity|]. split; [reflexivity|].
    split; [discriminate|]. split; [discriminate|]. now intros e' [= <-].
Qed.

Lemma response_is_never_empty_witness :
  exists (run : GPTModelService.pipeline) (text : string),
    GPTModelService.model gpt_silent = Some run
    /\ GPTModelService.generate_response gpt_silent "How do I push?"
         (Some GPTModelService.default_options) = Ok text
    /\ text <> EmptyString
    /\ (forall written,
          run "How do I push?" GPTModelService.default_options = inl written ->
          blank written = true ->
          text = "I understand your request. Let me help you with that Git operation.")
    /\ (forall e, run "How do I push?" GPTModelService.default_options = inr e ->
          text = "I encountered an error processing your request: " ++ e).
Proof.
  apply (response_is_never_empty gpt_silent "How do I push?"
           GPTModelService.default_options).
  reflexivity.
Defined.

(** ** The snapshot the analyzer builds *)

Lemma snapshot_fields (r : repo) (st : GitRepositoryState) :
  get_current_state r = Ok st ->
  exists name staged_l unstaged_l untracked_l remotes_l,
    (active_branch r = Attached name
     \/ (active_branch r = Detached /\ name = "HEAD (detached)"))
    /\ staged r = Ok staged_l /\ unstaged r = Ok unstaged_l
    /\ untracked r = Ok untracked_l /\ remote_list r = Ok remotes_l
    /\ st = mkState name staged_l unstaged_l untracked_l remotes_l (commits r)
              (_get_conflicted_files r)
              (Nat.eqb (length staged_l) 0 && Nat.eqb (length unstaged_l) 0
               && Nat.eqb (length untracked_l) 0)
              (_get_ahead_behind_info r).
Proof.
  unfold get_current_state.
  destruct (active_branch r) as [name| |e]; simpl; try discriminate;
    destruct (staged r) as [sl|e1]; simpl; try discriminate;
    destruct (unstaged r) as [ul|e2]; simpl; try discriminate;
    destruct (untracked r) as [tl|e3]; simpl; try discriminate;
    destruct (remote_list r) as [rl|e4]; simpl; try discriminate;
    intros [= <-]; do 5 eexists; repeat split; eauto.
Qed.

Lemma ahead_behind_lookup (a b : Z) :
  (<["behind" := b]> (<["ahead" := a]> (∅ : gmap string Z))) !! "ahead" = Some a
  /\ (<["behind" := b]> (<["ahead" := a]> (∅ : gmap string Z))) !! "behind" = Some b.
Proof.
  split.
  - rewrite lookup_insert_ne by discriminate. apply lookup_insert_eq.
  - apply lookup_insert_eq.
Qed.

(** X16: every snapshot the analyzer returns keeps three invariants:
    [is_clean] says exactly that the three file lists are empty; the
    conflicted files are absent or a non-empty list, never an empty one; and
    the ahead/behind record, when present, has both keys, with counts that
    are not negative. *)
Theorem snapshot_invariants (r : repo) (st : GitRepositoryState) :
  get_current_state r = Ok st ->
  consistent st
  /\ conflicted_files st <> Some []
  /\ (forall d : gmap string Z,
        ahead_behind st = Some d ->
        exists a b : Z,
          d !! "ahead" = Some a /\ d !! "behind" = Some b
          /\ (0 <= a)%Z /\ (0 <= b)%Z).
Proof.
  intros H.
  destruct (snapshot_fields r st H)
    as (name & sl & ul & tl & rl & _ & _ & _ & _ & _ & ->).
  split; [reflexivity|]. simpl. split.
  - unfold _get_conflicted_files.
    destruct (merge_head r) as [[]|]; try discriminate.
    destruct (index_entries r) as [entries|]; try discriminate.
    destruct (map fst _) as [|x l]; simpl; discriminate.
  - intros d. unfold _get_ahead_behind_info.
    destruct (tracking r) as [[]|]; try discriminate.
    destruct (ahead_commits r) as [ahead|]; try discriminate.
    destruct (behind_commits r) as [behind|]; try discriminate.
    intros [= <-].
    exists (Z.of_nat (length ahead)), (Z.of_nat (length behind)).
    destruct (ahead_behind_lookup (Z.of_nat (length ahead))
                (Z.of_nat (length behind))) as [Ha Hb].
    repeat split; try assumption; lia.
Qed.

Lemma snapshot_invariants_witness :
  exists st : GitRepositoryState,
    get_current_state merging_repo = Ok st
    /\ consistent st
    /\ conflicted_files st = Some ["x.txt"]
    /\ exists a b : Z,
         (default ∅ (ahead_behind st)) !! "ahead" = Some a
         /\ (default ∅ (ahead_behind st)) !! "behind" = Some b
         /\ (0 <= a)%Z /\ (0 <= b)%Z.
Proof.
  destruct (get_current_state merging_repo) as [st|e] eqn:Hst; [|discriminate].
  exists st. split; [reflexivity|].
  destruct (snapshot_invariants merging_repo st Hst) as (Hc & _ & Hab).
  split; [exact Hc|].
  injection Hst as <-.
  split; [reflexivity|].
  exact (Hab _ eq_refl).
Defined.

(** X17: the snapshot is returned exactly when the branch name, the three
    file lists and the remotes can be read.  A detached head is not a
    failure: the branch is then named "HEAD (detached)".  A failure while
    looking for conflicts reads as no conflict, and a failure while counting
    commits ahead and behind reads as no record. *)
Theorem snapshot_failures (r : repo) :
  (returns (get_current_state r) <-> snapshot_readable r)
  /\ (forall st, get_current_state r = Ok st ->
        (active_branch r = Detached -> current_branch st = "HEAD (detached)")
        /\ ((exists e, merge_head r = Raise e \/ index_entries r = Raise e) ->
            conflicted_files st = None)
        /\ ((exists e, tracking r = Raise e \/ ahead_commits r = Raise e
                       \/ behind_commits r = Raise e) ->
            ahead_behind st = None)).
Proof.
  split.
  - unfold snapshot_readable, returns, get_current_state. split.
    + intros [st H].
      destruct (active_branch r) as [name| |e]; simpl in H; try discriminate;
        destruct (staged r); simpl in H; try discriminate;
        destruct (unstaged r); simpl in H; try discriminate;
        destruct (untracked r); simpl in H; try discriminate;
        destruct (remote_list r); simpl in H; try discriminate;
        repeat split; try (intros ?; discriminate); eauto.
    + intros (Hb & [sl ->] & [ul ->] & [tl ->] & [rl ->]).
      destruct (active_branch r) as [name| |e]; simpl; eauto.
      now destruct (Hb e).
  - intros st H.
    destruct (snapshot_fields r st H)
      as (name & sl & ul & tl & rl & Hname & _ & _ & _ & _ & ->).
    simpl. split; [|split].
    + intros Hd. destruct Hname as [Hn|[_ ->]]; [congruence|reflexivity].
    + intros [e [He|He]]; unfold _get_conflicted_files; rewrite He;
        [reflexivity|]. now destruct (merge_head r) as [[]|].
    + intros [e [He|[He|He]]]; unfold _get_ahead_behind_info; rewrite He.
      * reflexivity.
      * now destruct (tracking r) as [[]|].
      * destruct (tracking r) as [[]|]; try reflexivity.
        now destruct (ahead_commits r).
Qed.

Lemma snapshot_failures_witness :
  exists st : GitRepositoryState,
    get_current_state detached_repo = Ok st
    /\ current_branch st = "HEAD (detached)"
    /\ conflicted_files st = None
    /\ ahead_behind st = None.
Proof.
  destruct (get_current_state detached_repo) as [st|e] eqn:Hst; [|discriminate].
  exists st. split; [reflexivity|].
  destruct (proj2 (snapshot_failures detached_repo) st Hst) as (Hb & Hc & Ha).
  split; [apply Hb; reflexivity|].
  split; [apply Hc; eexists; left; reflexivity|].
  apply Ha. eexists. left. reflexivity.
Defined.

(** ** Pushing from a snapshot of the analyzer *)

Lemma push_with_counts (st : GitRepositoryState) (a b : Z) :
  ahead_behind st = Some (<["behind" := b]> (<["ahead" := a]> ∅)) ->
  _generate_push_commands st =
    if (0 <? a)%Z then [plain_push_command a]
    else [upstream_push_command (current_branch st)].
Proof.
  intros Hab. unfold _generate_push_commands. rewrite Hab. cbv zeta.
  unfold Truth.of_dict, dict_get.
  rewrite (proj1 (ahead_behind_lookup a b)). simpl default.
  rewrite bool_decide_eq_false_2 by apply insert_non_empty.
  simpl. destruct (0 <? a)%Z; reflexivity.
Qed.

(** X18: on a snapshot of the analyzer, a push is the plain "git push",
    announcing the number of commits ahead, exactly when the upstream is
    tracked, both commit ranges can be listed and at least one commit is
    ahead.  Otherwise it is the first-time push that sets the upstream, and
    on a detached head this command names the branch "HEAD (detached)". *)
Theorem push_on_a_snapshot (r : repo) (st : GitRepositoryState) :
  get_current_state r = Ok st ->
  (forall ahead behind : list string,
     tracking r = Ok true -> ahead_commits r = Ok ahead ->
     behind_commits r = Ok behind -> ahead <> [] ->
     _generate_push_commands st = [plain_push_command (Z.of_nat (length ahead))])
  /\ (_get_ahead_behind_info r = None \/ ahead_commits r = Ok [] ->
      _generate_push_commands st = [upstream_push_command (current_branch st)])
  /\ (active_branch r = Detached -> _get_ahead_behind_info r = None ->
      _generate_push_commands st = [upstream_push_command "HEAD (detached)"]).
Proof.
  intros H.
  destruct (snapshot_fields r st H)
    as (name & sl & ul & tl & rl & Hname & _ & _ & _ & _ & ->).
  assert (Hnone : _get_ahead_behind_info r = None ->
                  forall st', ahead_behind st' = _get_ahead_behind_info r ->
                  _generate_push_commands st' = [upstream_push_command (current_branch st')]).
  { intros Hn st' Hst'. unfold _generate_push_commands. now rewrite Hst', Hn. }
  split; [|split].
  - intros ahead behind Ht Ha Hb Hne.
    rewrite (push_with_counts _ (Z.of_nat (length ahead)) (Z.of_nat (length behind))).
    + destruct ahead as [|c l]; [contradiction|]. reflexivity.
    + simpl. unfold _get_ahead_behind_info. now rewrite Ht, Ha, Hb.
  - intros [Hn|Ha]; [now apply Hnone|].
    destruct (_get_ahead_behind_info r) as [d|] eqn:Hinfo; [|now apply Hnone].
    unfold _get_ahead_behind_info in Hinfo. rewrite Ha in Hinfo.
    destruct (tracking r) as [[]|]; try discriminate.
    destruct (behind_commits r) as [behind|]; try discriminate.
    injection Hinfo as <-.
    now rewrite (push_with_counts _ (Z.of_nat (length (@nil string)))
                   (Z.of_nat (length behind))).
  - intros Hd Hn. rewrite (Hnone Hn) by reflexivity. simpl.
    destruct Hname as [Ha|[_ ->]]; [congruence|reflexivity].
Qed.

Lemma push_on_a_snapshot_witness :
  exists st : GitRepositoryState,
    get_current_state merging_repo = Ok st
    /\ _generate_push_commands st = [plain_push_command 2]
    /\ exists st' : GitRepositoryState,
         get_current_state detached_repo = Ok st'
         /\ _generate_push_commands st' = [upstream_push_command "HEAD (detached)"].
Proof.
  destruct (get_current_state merging_repo) as [st|e] eqn:Hst; [|discriminate].
  exists st. split; [reflexivity|]. split.
  - apply (proj1 (push_on_a_snapshot merging_repo st Hst) ["c1"; "c2"] []);
      try reflexivity. discriminate.
  - destruct (get_current_state detached_repo) as [st'|e] eqn:Hst'; [|discriminate].
    exists st'. split; [reflexivity|].
    apply (proj2 (proj2 (push_on_a_snapshot detached_repo st' Hst'))); reflexivity.
Defined.

Lemma process_without_context (self : t) (query : string) :
  process_user_query self query None =
    let! st := GitStateAnalyzer.get_current_state (git_analyzer self) in
    process_user_query self query (Some st).
Proof. reflexivity. Qed.

Lemma push_commands_hold_push (st : GitRepositoryState) :
  has_push (_generate_push_commands st) = true.
Proof. unfold _generate_push_commands. case_match; reflexivity. Qed.

Lemma consistent_dirty (st : GitRepositoryState) :
  consistent st -> (is_clean st = false <-> has_files st).
Proof.
  unfold consistent, has_files. intros ->.
  destruct (staged_files st), (unstaged_files st), (untracked_files st); simpl;
    split; intros H; try discriminate; try reflexivity; auto;
    try (right; left; discriminate); try (left; discriminate);
    try (right; right; discriminate).
  destruct H as [H|[H|H]]; contradiction.
Qed.

Lemma snapshot_consistent (r : repo) (st : GitRepositoryState) :
  get_current_state r = Ok st -> consistent st.
Proof.
  intros H.
  destruct (snapshot_fields r st H)
    as (name & sl & ul & tl & rl & _ & _ & _ & _ & _ & ->).
  reflexivity.
Qed.

(** X19: a push request without a given snapshot, on a repository the
    analyzer can read and with an initialised model, is answered, and the
    answer carries the uncommitted-changes advisory exactly when the
    repository has a staged, unstaged or untracked file. *)
Theorem push_request_warns_about_any_file (g : GPTModelService.t) (r : repo)
    (analyze_diff : option string -> result GitDiff) (query : string)
    (st : GitRepositoryState) :
  GPTModelService.is_model_ready g = true ->
  action (_analyze_intent query) = "push" ->
  get_current_state r = Ok st ->
  exists response : AssistantResponse,
    process_user_query (mk g (analyzer_of r analyze_diff)) query None = Ok response
    /\ suggested_commands response = _generate_push_commands st
    /\ (In uncommitted_warning (default [] (warnings response)) <-> has_files st).
Proof.
  intros Hr Ha Hst. rewrite process_without_context.
  simpl git_analyzer. unfold analyzer_of. simpl GitStateAnalyzer.get_current_state.
  rewrite Hst, bind_ok.
  destruct (process_when_ready (mk g (GitStateAnalyzer.mk (Ok st) analyze_diff))
              query st Hr) as [ai ->].
  assert (Hcmds : _generate_commands
                    (mk g (GitStateAnalyzer.mk (Ok st) analyze_diff))
                    (_analyze_intent query) query st ai
                  = Ok (_generate_push_commands st)).
  { unfold _generate_commands. cbv zeta. rewrite Ha. reflexivity. }
  rewrite Hcmds, bind_ok.
  eexists. split; [reflexivity|]. split; [reflexivity|].
  simpl warnings. rewrite check_warnings_spec. cbv zeta.
  rewrite push_commands_hold_push, andb_true_r.
  rewrite <- (consistent_dirty st (snapshot_consistent r st Hst)).
  destruct (has_destructive _); destruct (is_clean st);
    destruct (has_conflicts st); simpl; split; intros H;
    try discriminate; try reflexivity; auto;
    repeat (destruct H as [H|H]; [discriminate|]); try contradiction.
Qed.

Lemma push_request_warns_about_any_file_witness :
  exists (st : GitRepositoryState) (response : AssistantResponse),
    get_current_state merging_repo = Ok st
    /\ process_user_query
         (mk gpt_silent (analyzer_of merging_repo (fun _ => Ok one_file_diff)))
         "push to origin" None = Ok response
    /\ suggested_commands response = _generate_push_commands st
    /\ (In uncommitted_warning (default [] (warnings response)) <-> has_files st).
Proof.
  destruct (get_current_state merging_repo) as [st|e] eqn:Hst; [|discriminate].
  exists st.
  destruct (push_request_warns_about_any_file gpt_silent merging_repo
              (fun _ => Ok one_file_diff) "push to origin" st)
    as (response & Hp & Hc & Hw).
  - reflexivity.
  - reflexivity.
  - exact Hst.
  - exists response. auto.
Defined.

(** ** The workflow detector *)

Lemma existsb_permutation {A} (f : A -> bool) (l l' : list A) :
  Permutation l l' -> existsb f l = existsb f l'.
Proof.
  induction 1 as [|x l l' _ IH|x y l|l l' l'' _ IH1 _ IH2]; simpl.
  - reflexivity.
  - now rewrite IH.
  - destruct (f x), (f y); reflexivity.
  - now rewrite IH1.
Qed.

(** X20: the workflow the detector reports depends on which branch names
    exist, not on the order in which the repository lists them. *)
Theorem workflow_ignores_branch_order (branches branches' : list string) :
  Permutation branches branches' ->
  detect_workflow branches = detect_workflow branches'.
Proof.
  intros Hp. unfold detect_workflow, mem. cbv zeta.
  rewrite !truth_of_filter.
  rewrite !(existsb_permutation _ branches branches' Hp).
  reflexivity.
Qed.

Lemma workflow_ignores_branch_order_witness :
  detect_workflow ["main"; "feature/login"; "develop"] =
  detect_workflow ["develop"; "main"; "feature/login"].
Proof.
  apply workflow_ignores_branch_order.
  apply Permutation_sym.
  apply (Permutation_cons_append ["main"; "feature/login"] "develop").
Defined.

(** ** Names that reach the command line *)

Lemma intent_target (query : string) :
  action (_analyze_intent query) <> "help" ->
  target (_analyze_intent query) =
    _extract_target query (action (_analyze_intent query)).
Proof.
  rewrite first_matching_category.
  destruct (List.filter _ command_patterns) as [|[c ps] l]; simpl;
    [contradiction|reflexivity].
Qed.

Lemma branch_target_cases (query : string) :
  _extract_target query "branch" = "new branch"
  \/ word_of plain_name_char (_extract_target query "branch").
Proof.
  unfold _extract_target. simpl String.eqb. cbv iota.
  destruct (search branch_pattern (Text.lower query)) as [m|] eqn:Hs;
    [right|now left].
  destruct (closing_group_captures _ name_char _ _ _ m (lower_no_capital query) Hs)
    as (t & Hg & Hw).
  unfold group1. rewrite Hg. exact Hw.
Qed.

Lemma merge_target_is_plain (query : string) :
  word_of plain_name_char (_extract_target query "merge").
Proof.
  unfold _extract_target. simpl String.eqb. cbv iota.
  destruct (search merge_pattern (Text.lower query)) as [m|] eqn:Hs.
  - destruct (closing_group_captures _ name_char _ _ _ m (lower_no_capital query) Hs)
      as (t & Hg & Hw).
    unfold group1. rewrite Hg. exact Hw.
  - split; [discriminate|reflexivity].
Qed.

(** X21: a request classified [branch] that says "create" or "new" gets the
    single safe command "git checkout -b NAME", and NAME is always a
    non-empty word over [a-z0-9_/-]: the name found after the word "branch"
    in the lower-cased query, or "feature/new-feature" when none is found;
    the placeholder "new branch" never reaches the command. *)
Theorem created_branch_has_a_plain_name (self : t) (query : string)
    (context : GitRepositoryState) (ai_response : string) :
  action (_analyze_intent query) = "branch" ->
  Text.contains "create" (Text.lower query)
  || Text.contains "new" (Text.lower query) = true ->
  exists name : string,
    _generate_commands self (_analyze_intent query) query context ai_response
    = Ok [create_branch_command name]
    /\ word_of plain_name_char name.
Proof.
  intros Ha Hcreate.
  assert (Ht : target (_analyze_intent query) = _extract_target query "branch").
  { rewrite intent_target by (rewrite Ha; discriminate). now rewrite Ha. }
  unfold _generate_commands. cbv zeta. rewrite Ha. simpl String.eqb. cbv iota.
  unfold _generate_branch_commands. cbv zeta. rewrite Hcreate, Ht.
  destruct (String.eqb_spec (_extract_target query "branch") "new branch") as [E|N].
  - exists "feature/new-feature". split; [reflexivity|].
    split; [discriminate|reflexivity].
  - exists (_extract_target query "branch"). split; [reflexivity|].
    destruct (branch_target_cases query) as [E|Hw]; [contradiction|exact Hw].
Qed.

Lemma created_branch_has_a_plain_name_witness :
  exists name : string,
    _generate_commands (service gpt_silent)
      (_analyze_intent "Create a NEW branch Feature/Login now")
      "Create a NEW branch Feature/Login now" clean_tree EmptyString
    = Ok [create_branch_command name]
    /\ word_of plain_name_char name.
Proof.
  apply (created_branch_has_a_plain_name (service gpt_silent)
           "Create a NEW branch Feature/Login now" clean_tree EmptyString);
    reflexivity.
Defined.

(** X22: a request classified [merge] ends with the moderate, confirmed
    command "git merge NAME", where NAME is a non-empty word over
    [a-z0-9_/-] (the word "branch" when the query names nothing to merge),
    and it starts with a safe "git status" exactly when the tree is not
    clean. *)
Theorem merge_names_a_plain_branch (self : t) (query : string)
    (context : GitRepositoryState) (ai_response : string) :
  action (_analyze_intent query) = "merge" ->
  exists name : string,
    _generate_commands self (_analyze_intent query) query context ai_response
    = Ok ((if is_clean context then [] else [status_before_merge])
          ++ [merge_command name])%list
    /\ word_of plain_name_char name.
Proof.
  intros Ha.
  assert (Ht : target (_analyze_intent query) = _extract_target query "merge").
  { rewrite intent_target by (rewrite Ha; discriminate). now rewrite Ha. }
  exists (_extract_target query "merge"). split; [|apply merge_target_is_plain].
  unfold _generate_commands. cbv zeta. rewrite Ha. simpl String.eqb. cbv iota.
  unfold _generate_merge_commands. cbv zeta. rewrite Ht.
  destruct (is_clean context); reflexivity.
Qed.

Lemma merge_names_a_plain_branch_witness :
  exists name : string,
    _generate_commands (service gpt_silent)
      (_analyze_intent "Merge Hotfix/1.2 into main")
      "Merge Hotfix/1.2 into main" modified_tree EmptyString
    = Ok ((if is_clean modified_tree then [] else [status_before_merge])
          ++ [merge_command name])%list
    /\ word_of plain_name_char name.
Proof.
  apply (merge_names_a_plain_branch (service gpt_silent)
           "Merge Hotfix/1.2 into main" modified_tree EmptyString).
  reflexivity.
Defined.

(** X23: a query that holds "commit" as a word of its own is classified
    [commit], whatever else it says: the second commit pattern is found and
    commit is the first category. *)
Theorem whole_word_commit_is_a_commit_request (query : string) :
  found (search whole_word_commit (Text.lower query)) = true ->
  action (_analyze_intent query) = "commit".
Proof.
  intros Hfound. rewrite first_matching_category. unfold command_patterns.
  cbn [List.filter].
  assert (Hc : category_matches (Text.lower query)
                 (hd (EmptyString, []) command_patterns) = true).
  { unfold category_matches, command_patterns. cbn [hd snd existsb].
    unfold whole_word_commit in Hfound. rewrite Hfound.
    now rewrite orb_true_r. }
  unfold command_patterns in Hc. cbn [hd] in Hc. rewrite Hc. reflexivity.
Qed.

Lemma whole_word_commit_is_a_commit_request_witness :
  action (_analyze_intent "Please revert the merge commit and stash it") = "commit".
Proof.
  apply whole_word_commit_is_a_commit_request. reflexivity.
Defined.

(** ** What reaches the explanation and the backend *)

Lemma silent_model_answer (g : GPTModelService.t) (run : GPTModelService.pipeline)
    (prompt : string) (options : option GPTModelService.InferenceOptions) :
  GPTModelService.is_loaded g = true ->
  GPTModelService.model g = Some run ->
  writes_nothing run ->
  GPTModelService.generate_response g prompt options = Ok canned_answer.
Proof.
  intros Hl Hm Hrun. unfold GPTModelService.generate_response,
    GPTModelService.is_model_ready. rewrite Hl, Hm. simpl.
  destruct (Hrun prompt (match options with
                         | Some o => o
                         | None => GPTModelService.default_options
                         end)) as (written & -> & Hb).
  now rewrite (strip_blank written Hb).
Qed.

(** X24: when the model writes nothing but white space, the explanation of
    every response is the sentence of the action followed by a space and the
    canned answer of the service: an empty generation is never dropped from
    the explanation, because the service has replaced it before the length
    test of the assembler sees it. *)
Theorem silent_model_still_fills_the_explanation (self : t)
    (run : GPTModelService.pipeline) (query : string)
    (context : GitRepositoryState) (r : AssistantResponse) :
  GPTModelService.is_loaded (gpt_service self) = true ->
  GPTModelService.model (gpt_service self) = Some run ->
  writes_nothing run ->
  process_user_query self query (Some context) = Ok r ->
  response_explanation r =
    _generate_explanation (_analyze_intent query) query context EmptyString
    ++ " " ++ canned_answer.
Proof.
  intros Hl Hm Hrun. unfold process_user_query. simpl bind at 1.
  unfold GPTModelService.generate_git_response.
  rewrite (silent_model_answer _ run _ _ Hl Hm Hrun), bind_ok.
  destruct (_generate_commands self (_analyze_intent query) query context
              canned_answer) as [cmds|e]; [|discriminate].
  rewrite bind_ok. intros [= <-]. reflexivity.
Qed.

Lemma silent_model_still_fills_the_explanation_witness :
  exists r : AssistantResponse,
    process_user_query (service gpt_silent) "show me the status"
      (Some clean_tree) = Ok r
    /\ response_explanation r =
         "I'll show you the current status of your repository. "
         ++ canned_answer.
Proof.
  eexists. split; [reflexivity|].
  apply (silent_model_still_fills_the_explanation (service gpt_silent)
           silent_model "show me the status" clean_tree).
  - reflexivity.
  - reflexivity.
  - intros prompt options. exists EmptyString. split; reflexivity.
  - reflexivity.
Defined.

(** X25: the context handed to the backend lists at most three recent
    commit messages, and on a snapshot of the analyzer its conflict flag
    agrees with the conflict rule of the auditor (the flag tests for a
    present list, the rule for a non-empty one; the analyzer never returns a
    present empty list). *)
Theorem backend_context_of_a_snapshot (r : repo) (st : GitRepositoryState) :
  get_current_state r = Ok st ->
  GPTModelService.ctx_has_conflicts (_build_git_context st) = has_conflicts st
  /\ (length (GPTModelService.ctx_recent_commits (_build_git_context st)) <= 3)%nat.
Proof.
  intros H. split.
  - destruct (snapshot_fields r st H)
      as (name & sl & ul & tl & rl & _ & _ & _ & _ & _ & ->).
    unfold has_conflicts. simpl. unfold _get_conflicted_files.
    destruct (merge_head r) as [[]|]; try reflexivity.
    destruct (index_entries r) as [entries|]; try reflexivity.
    destruct (map fst _) as [|x l]; reflexivity.
  - simpl. rewrite length_map. apply firstn_le_length.
Qed.

Lemma backend_context_of_a_snapshot_witness :
  exists st : GitRepositoryState,
    get_current_state merging_repo = Ok st
    /\ GPTModelService.ctx_has_conflicts (_build_git_context st) = has_conflicts st
    /\ (length (GPTModelService.ctx_recent_commits (_build_git_context st)) <= 3)%nat.
Proof.
  destruct (get_current_state merging_repo) as [st|e] eqn:Hst; [|discriminate].
  exists st. split; [reflexivity|].
  exact (backend_context_of_a_snapshot merging_repo st Hst).
Defined.
